(** * Omnisent dashboard: the sample -> classify -> visualise pipeline

    A shallow embedding of the three scripts of the repository

      - [prepare_data.py]       (module [PrepareData], the Sampler),
      - [analyze_sentiment.py]  (module [AnalyzeSentiment], the Classifier),
      - [app.py]                (module [App], the Dashboard),

    together with the properties of their data-transformation contract.

    A pandas table is a list of rows, a nullable cell is an [option]
    ([None] is NaN / NaT).  A Python [str] is a [string]; the character
    operations ([isspace], [lower], [title] ...) are those of Python on
    the ASCII range, and a character above 127 is taken as neither
    white space nor cased nor a word character.  Library calls whose
    result the scripts only pass along (the date parser, the random
    sampler, the sentiment model, the stop-word corpus, the sort of
    [sort_values] and [value_counts], the float division of the ratio
    column) are variables of the section that
    uses them, constrained where a proof needs it by the contract of the
    library call.

    The definitions come first: the string primitives, the three
    scripts, the side bar, the grouped and ranked tables and the printed
    summary.  The properties follow, stage by stage. *)

From Stdlib Require Import List Bool Arith ZArith Lia Ascii String Permutation
  Sorted.
Import ListNotations.

Open Scope string_scope.

(* ------------------------------------------------------------------ *)
(** ** Python string primitives *)

Module PyStr.

(** The code point of [c] lies in [lo..hi]. *)
Definition between (lo hi : nat) (c : ascii) : bool :=
  Nat.leb lo (nat_of_ascii c) && Nat.leb (nat_of_ascii c) hi.

(** [c.isspace()] on ASCII: TAB..CR, FS..US and the blank. *)
Definition isspace (c : ascii) : bool := between 9 13 c || between 28 32 c.

Definition isupper (c : ascii) : bool := between 65 90 c.

Definition islower (c : ascii) : bool := between 97 122 c.

Definition isdigit (c : ascii) : bool := between 48 57 c.

(** [[a-zA-Z]] *)
Definition isalpha (c : ascii) : bool := isupper c || islower c.

(** [\w] *)
Definition isword (c : ascii) : bool :=
  isalpha c || isdigit c || Ascii.eqb c "_"%char.

Definition lower_char (c : ascii) : ascii :=
  if isupper c then ascii_of_nat (nat_of_ascii c + 32) else c.

Definition upper_char (c : ascii) : ascii :=
  if islower c then ascii_of_nat (nat_of_ascii c - 32) else c.

(** [s.lower()] *)
Fixpoint lower (s : string) : string :=
  match s with
  | EmptyString => EmptyString
  | String c s' => String (lower_char c) (lower s')
  end.

(** [s.lstrip()] *)
Fixpoint lstrip (s : string) : string :=
  match s with
  | EmptyString => EmptyString
  | String c s' => if isspace c then lstrip s' else s
  end.

(** [s.rstrip()] *)
Fixpoint rstrip (s : string) : string :=
  match s with
  | EmptyString => EmptyString
  | String c s' =>
      match rstrip s' with
      | EmptyString => if isspace c then EmptyString else String c EmptyString
      | r => String c r
      end
  end.

(** [s.strip()] *)
Definition strip (s : string) : string := rstrip (lstrip s).

(** [s[:n]] *)
Fixpoint slice_to (n : nat) (s : string) : string :=
  match n, s with
  | S n', String c s' => String c (slice_to n' s')
  | _, _ => EmptyString
  end.

(** [s[n:]] *)
Fixpoint slice_from (n : nat) (s : string) : string :=
  match n, s with
  | S n', String _ s' => slice_from n' s'
  | _, _ => s
  end.

(** [s.capitalize()]: first character upper-cased, the rest lower-cased. *)
Definition capitalize (s : string) : string :=
  match s with
  | EmptyString => EmptyString
  | String c s' => String (upper_char c) (lower s')
  end.

(** [s.title()]: a character that follows a cased character is
    lower-cased, any other one is upper-cased. *)
Fixpoint title_from (previous_is_cased : bool) (s : string) : string :=
  match s with
  | EmptyString => EmptyString
  | String c s' =>
      String (if previous_is_cased then lower_char c else upper_char c)
             (title_from (isalpha c) s')
  end.

Definition title (s : string) : string := title_from false s.

(** The character [title_from] writes for [c]. *)
Definition title_char (previous_is_cased : bool) (c : ascii) : ascii :=
  if previous_is_cased then lower_char c else upper_char c.

(** [sep.join(xs)] *)
Fixpoint join (sep : string) (xs : list string) : string :=
  match xs with
  | [] => EmptyString
  | [x] => x
  | x :: rest => x ++ sep ++ join sep rest
  end.

(** [s.split()]: the maximal runs of characters that are not white space.
    [cur] is the run being read, in reverse. *)
Fixpoint rev_string (acc s : string) : string :=
  match s with
  | EmptyString => acc
  | String c s' => rev_string (String c acc) s'
  end.

Definition flush (cur : string) : list string :=
  match cur with
  | EmptyString => []
  | _ => [rev_string EmptyString cur]
  end.

Fixpoint split_from (cur : string) (s : string) : list string :=
  match s with
  | EmptyString => flush cur
  | String c s' =>
      if isspace c then flush cur ++ split_from EmptyString s'
      else split_from (String c cur) s'
  end.

Definition split (s : string) : list string := split_from EmptyString s.

(** Every character of [s] satisfies [p]. *)
Fixpoint all_chars (p : ascii -> bool) (s : string) : bool :=
  match s with
  | EmptyString => true
  | String c s' => p c && all_chars p s'
  end.

End PyStr.

(* ------------------------------------------------------------------ *)
(** ** Values shared by the three stages *)

(** A parsed [pandas.Timestamp]; only the calendar fields the scripts
    read are kept. *)
Record timestamp := mk_timestamp {
  ts_year : Z;
  ts_month : Z;
  ts_day : Z
}.

(** The check the Sampler and the Classifier both apply to a [text]
    cell: [dropna(subset=["text"])] followed by
    [df[df["text"].str.strip() != ""]]. *)
Module TextCleaning.

(** [notna()] of a cell. *)
Definition notna {A} (x : option A) : bool :=
  match x with Some _ => true | None => false end.

(** One element of [col.str.strip() != ""]: a NaN cell stays NaN
    under [.str.strip()] and NaN differs from every string. *)
Definition strip_ne_empty (x : option string) : bool :=
  match x with
  | Some s => negb (String.eqb (PyStr.strip s) "")
  | None => true
  end.

Section Table.
Context {R : Type} (text : R -> option string).

Definition dropna_text (df : list R) : list R :=
  filter (fun r => notna (text r)) df.

Definition drop_blank_text (df : list R) : list R :=
  filter (fun r => strip_ne_empty (text r)) df.

(** The two cleaning statements in sequence. *)
Definition clean_text (df : list R) : list R :=
  drop_blank_text (dropna_text df).

(** The postcondition: the [text] of a row is present and is not
    blank. *)
Definition good_text (r : R) : Prop :=
  exists s, text r = Some s /\ PyStr.strip s <> "".

Definition good_textb (r : R) : bool :=
  notna (text r) && strip_ne_empty (text r).

End Table.

End TextCleaning.

(** What a library call does: it returns a value or raises an
    [Exception]. *)
Inductive outcome (A : Type) : Type :=
| Returns (a : A)
| Raises.

Arguments Returns {A} a.
Arguments Raises {A}.

(* ------------------------------------------------------------------ *)
(** ** prepare_data.py: the Sampler *)

Module PrepareData.

(** The three columns of [clubs_tweets.csv] the script selects. *)
Record raw_row := mk_raw_row {
  tweet_created_at : option string;
  tweet_full_text : option string;
  user_screen_name : option string
}.

(** A row of [football_tweets_all.csv]. *)
Record row := mk_row {
  date : option timestamp;
  text : option string;
  club_name : option string
}.

Section Sampler.

(** [pd.to_datetime(s, errors='coerce')] on a cell that is not null:
    [None] is NaT. *)
Variable to_datetime : string -> option timestamp.

(** [df.sample(n=n, random_state=seed)]. *)
Variable sample : list row -> nat -> Z -> list row.

(** [pd.to_datetime(df['tweet_created_at'], errors='coerce')], one cell. *)
Definition coerce_datetime (c : option string) : option timestamp :=
  match c with
  | Some s => to_datetime s
  | None => None
  end.

(** Column selection and [rename(columns={...})]. *)
Definition select_rename (r : raw_row) : row :=
  {| date := coerce_datetime (tweet_created_at r);
     text := tweet_full_text r;
     club_name := user_screen_name r |}.

(** [df_clean] after "Drop missing or blank text". *)
Definition df_clean (df : list raw_row) : list row :=
  TextCleaning.clean_text text (map select_rename df).

(** [df_clean] as written to [football_tweets_all.csv]. *)
Definition prepare_data (df : list raw_row) : list row :=
  let cleaned := df_clean df in
  if Nat.ltb 1500 (List.length cleaned) then sample cleaned 1500 42%Z
  else cleaned.

End Sampler.

End PrepareData.

(* ------------------------------------------------------------------ *)
(** ** analyze_sentiment.py: the Classifier *)

Module AnalyzeSentiment.

(** A row of [football_tweets_all.csv] as [read_csv] returns it. *)
Record row := mk_row {
  date : option string;
  text : option string;
  club_name : option string
}.

(** The row with its [sentiment] column. *)
Record labeled_row := mk_labeled_row {
  tweet : row;
  sentiment : string
}.

(** One element of the list the transformers pipeline returns; the
    score is not read. *)
Record prediction := mk_prediction {
  label : string
}.

(** [str(x)] of a cell. *)
Definition str (x : option string) : string :=
  match x with
  | Some s => s
  | None => "nan"
  end.

Section Classifier.

(** The call [sentiment_analyzer(s)]. *)
Variable sentiment_analyzer : string -> outcome (list prediction).

(** The argument of the call: [str(text)[:512]]. *)
Definition submitted (text : option string) : string :=
  PyStr.slice_to 512 (str text).

(** [safe_predict]: indexing an empty answer raises as well. *)
Definition safe_predict (text : option string) : string :=
  match sentiment_analyzer (submitted text) with
  | Returns (p :: _) => label p
  | Returns [] => "NEUTRAL"
  | Raises => "NEUTRAL"
  end.

(** [df] after "Clean up empty text". *)
Definition clean (df : list row) : list row :=
  TextCleaning.clean_text text df.

(** [df] as written to [football_sentiments_all.csv]. *)
Definition analyze_sentiment (df : list row) : list labeled_row :=
  map (fun r => {| tweet := r; sentiment := safe_predict (text r) |})
      (clean df).

End Classifier.


End AnalyzeSentiment.

(* ------------------------------------------------------------------ *)
(** ** The regular expressions of app.py

    Each pattern of the script is a matcher: given the text that starts
    at the scan position it returns the length of the match there, if
    any.  No pattern of the script matches the empty string. *)

Module Re.

Section Sub.

Variable matcher : string -> option nat.
Variable repl : string.

(** [re.sub(pattern, repl, s)]: left to right, a match is replaced and
    the scan resumes behind it; [skip] counts the characters of the
    current match still to be passed over. *)
Fixpoint sub_from (skip : nat) (s : string) : string :=
  match s with
  | EmptyString => EmptyString
  | String c s' =>
      match skip with
      | S k => sub_from k s'
      | O =>
          match matcher s with
          | Some (S k) => repl ++ sub_from k s'
          | _ => String c (sub_from O s')
          end
      end
  end.

Definition sub (s : string) : string := sub_from 0 s.

End Sub.

(** The number of leading characters of [s] in the class [p]. *)
Fixpoint run (p : ascii -> bool) (s : string) : nat :=
  match s with
  | EmptyString => 0
  | String c s' => if p c then S (run p s') else 0
  end.

(** [s] starts with the literal [pat]; [ci] is [re.IGNORECASE]. *)
Fixpoint starts_with (ci : bool) (pat s : string) : bool :=
  match pat, s with
  | EmptyString, _ => true
  | String p pat', String c s' =>
      (if ci then Ascii.eqb (PyStr.lower_char p) (PyStr.lower_char c)
       else Ascii.eqb p c)
      && starts_with ci pat' s'
  | String _ _, EmptyString => false
  end.

(** [a1|a2|...] over literals: the first alternative that matches. *)
Fixpoint alternation (ci : bool) (alts : list string) (s : string)
  : option nat :=
  match alts with
  | [] => None
  | a :: rest =>
      if starts_with ci a s then Some (String.length a)
      else alternation ci rest s
  end.

(** A one-character class such as [[_-]] or [[^a-zA-Z\s]]. *)
Definition char_class (p : ascii -> bool) (s : string) : option nat :=
  match s with
  | String c _ => if p c then Some 1 else None
  | EmptyString => None
  end.

(** A literal followed by a greedy [p+], such as [http\S+] or [@\w+]. *)
Definition literal_then_run (lit : string) (p : ascii -> bool) (s : string)
  : option nat :=
  if starts_with false lit s then
    match run p (PyStr.slice_from (String.length lit) s) with
    | O => None
    | n => Some (String.length lit + n)
    end
  else None.

End Re.

(* ------------------------------------------------------------------ *)
(** ** [groupby(keys).size()]

    The groups come out sorted by key, and a row with a null key is in
    no group. *)

Module GroupBy.

Section Size.

Context {K : Type} (cmp : K -> K -> comparison).

(** Count one more row under [k], keeping the keys in order. *)
Fixpoint bump (k : K) (g : list (K * nat)) : list (K * nat) :=
  match g with
  | [] => [(k, 1)]
  | (k', n) :: g' =>
      match cmp k k' with
      | Eq => (k', S n) :: g'
      | Lt => (k, 1) :: g
      | Gt => (k', n) :: bump k g'
      end
  end.

Definition size_of_keys (keys : list K) : list (K * nat) :=
  fold_left (fun g k => bump k g) keys [].

(** [df.groupby(keys).size()], where [key r = None] when one of the key
    cells of [r] is null. *)
Definition size {R : Type} (key : R -> option K) (df : list R)
  : list (K * nat) :=
  size_of_keys
    (flat_map (fun r => match key r with Some k => [k] | None => [] end) df).

End Size.

(** Lexicographic order of a two-column key. *)
Definition cmp_pair {A B : Type} (ca : A -> A -> comparison)
  (cb : B -> B -> comparison) (x y : A * B) : comparison :=
  match ca (fst x) (fst y) with
  | Eq => cb (snd x) (snd y)
  | o => o
  end.

(** The number of rows counted in a result. *)
Definition total {K : Type} (g : list (K * nat)) : nat :=
  fold_right (fun kn acc => snd kn + acc) 0 g.

(** The order in which the groups are sorted is a total order on the
    keys. *)
Class KeyOrder {K : Type} (cmp : K -> K -> comparison) : Prop := {
  cmp_eq : forall a b, cmp a b = Eq -> a = b;
  cmp_antisym : forall a b, cmp a b = CompOpp (cmp b a);
  cmp_trans : forall a b c, cmp a b = Lt -> cmp b c = Lt -> cmp a c = Lt
}.

(** [k] and [k'] are the same key. *)
Definition same_key {K : Type} (cmp : K -> K -> comparison) (k k' : K)
  : bool :=
  match cmp k k' with
  | Eq => true
  | _ => false
  end.

(** The rows of [df] whose key is [k]. *)
Definition rows_with_key {K R : Type} (cmp : K -> K -> comparison)
  (key : R -> option K) (k : K) (df : list R) : list R :=
  filter (fun r => match key r with
                   | Some k' => same_key cmp k k'
                   | None => false
                   end) df.

(** The count recorded under [k] in a result, over all its entries. *)
Definition count_under {K : Type} (cmp : K -> K -> comparison) (k : K)
  (g : list (K * nat)) : nat :=
  fold_right (fun kn acc => if same_key cmp k (fst kn) then snd kn + acc
                            else acc) 0 g.

(** The keys of a result go up strictly. *)
Definition keys_increasing {K : Type} (cmp : K -> K -> comparison)
  (g : list (K * nat)) : Prop :=
  StronglySorted (fun x y => cmp (fst x) (fst y) = Lt) g.

End GroupBy.

(* ------------------------------------------------------------------ *)
(** ** app.py: the Dashboard *)

Module App.

(** A row of [football_sentiments_all.csv] as [read_csv] returns it. *)
Record csv_row := mk_csv_row {
  csv_date : option string;
  csv_text : option string;
  csv_club_name : option string;
  csv_sentiment : option string
}.

(** A row of the table [load_data] returns. *)
Record row := mk_row {
  date : option timestamp;
  text : option string;
  club_name : option string;
  sentiment : option string;
  year : option Z
}.

(** [[_-]] *)
Definition is_separator (c : ascii) : bool :=
  Ascii.eqb c "_"%char || Ascii.eqb c "-"%char.

(** The alternatives of [FC|cf|official|en|es|cat|de|fr|nl]. *)
Definition boilerplate : list string :=
  ["FC"; "cf"; "official"; "en"; "es"; "cat"; "de"; "fr"; "nl"].

(** [.str.replace(r"[_-]", " ", regex=True)] *)
Definition replace_separators (s : string) : string :=
  Re.sub (Re.char_class is_separator) " " s.

(** [.str.replace(r"FC|cf|...|nl", "", case=False, regex=True)] *)
Definition remove_boilerplate (s : string) : string :=
  Re.sub (Re.alternation true boilerplate) "" s.

(** The chain of string methods applied to one [club_name]. *)
Definition clean_club_name (s : string) : string :=
  PyStr.title (PyStr.strip (remove_boilerplate (replace_separators s))).

Section LoadData.

(** [pd.to_datetime(s, errors="coerce")] on a cell that is not null. *)
Variable to_datetime : string -> option timestamp.

Definition coerce_datetime (c : option string) : option timestamp :=
  match c with
  | Some s => to_datetime s
  | None => None
  end.

(** One row of [load_data]; the [.str] methods and [.dt.year] leave a
    null cell null. *)
Definition load_row (r : csv_row) : row :=
  let d := coerce_datetime (csv_date r) in
  {| date := d;
     text := csv_text r;
     club_name := option_map clean_club_name (csv_club_name r);
     sentiment := option_map PyStr.capitalize (csv_sentiment r);
     year := option_map ts_year d |}.

Definition load_data (csv : list csv_row) : list row := map load_row csv.

End LoadData.

(** [col.dropna()] *)
Definition dropna {A : Type} (col : list (option A)) : list A :=
  flat_map (fun x => match x with Some a => [a] | None => [] end) col.

(** [col.unique()]: the values in the order of their first appearance. *)
Fixpoint unique_from {A : Type} (eqb : A -> A -> bool) (seen col : list A)
  : list A :=
  match col with
  | [] => []
  | x :: rest =>
      if existsb (eqb x) seen then unique_from eqb seen rest
      else x :: unique_from eqb (x :: seen) rest
  end.

Definition unique {A : Type} (eqb : A -> A -> bool) (col : list A) : list A :=
  unique_from eqb [] col.

(** [sorted(xs)]: a stable sort, here by insertion from the right. *)
Fixpoint insert_sorted {A : Type} (cmp : A -> A -> comparison) (x : A)
  (l : list A) : list A :=
  match l with
  | [] => [x]
  | y :: l' =>
      match cmp x y with
      | Gt => y :: insert_sorted cmp x l'
      | _ => x :: l
      end
  end.

Definition sorted {A : Type} (cmp : A -> A -> comparison) (l : list A)
  : list A :=
  fold_right (insert_sorted cmp) [] l.

(** [years], line 69; the years are whole numbers, which
    [.astype(int)] leaves as they are. *)
Definition years (df : list row) : list Z :=
  sorted Z.compare (unique Z.eqb (dropna (map year df))).

(** [clubs], line 72. *)
Definition clubs (df : list row) : list string :=
  sorted String.compare (unique String.eqb (dropna (map club_name df))).

(** What the year select box holds: ["All"] or one of the years. *)
Inductive year_selection :=
| AllYears
| Year (y : Z).

(** [filtered_df["year"] == selected_year], one row; a null year equals
    nothing. *)
Definition year_is (y : Z) (r : row) : bool :=
  match year r with
  | Some y' => Z.eqb y' y
  | None => false
  end.

(** [filtered_df["club_name"] == selected_club], one row. *)
Definition club_is (c : string) (r : row) : bool :=
  match club_name r with
  | Some c' => String.eqb c' c
  | None => false
  end.

(** [filtered_df], lines 75-79; the club select box holds a string. *)
Definition filtered_df (df : list row) (selected_year : year_selection)
  (selected_club : string) : list row :=
  let filtered := df in
  let filtered :=
    match selected_year with
    | AllYears => filtered
    | Year y => filter (year_is y) filtered
    end in
  if negb (String.eqb selected_club "All")
  then filter (club_is selected_club) filtered
  else filtered.

(** The specification's reading of a selection: no constraint on a
    dimension set to ["All"], equality with the selected value
    otherwise, both at once. *)
Definition year_constraint (selected_year : year_selection) (r : row) : bool :=
  match selected_year with
  | AllYears => true
  | Year y => year_is y r
  end.

Definition club_constraint (selected_club : string) (r : row) : bool :=
  if String.eqb selected_club "All" then true else club_is selected_club r.

Definition matches_selection (selected_year : year_selection)
  (selected_club : string) (r : row) : bool :=
  year_constraint selected_year r && club_constraint selected_club r.

(** [len(filtered_df[filtered_df['sentiment'] == s])] *)
Definition count_sentiment (s : string) (df : list row) : nat :=
  List.length
    (filter (fun r => match sentiment r with
                      | Some s' => String.eqb s' s
                      | None => false
                      end) df).

(** Decimal digits of a calendar field. *)
Definition digit (n : Z) : ascii :=
  ascii_of_nat (48 + Z.to_nat (n mod 10)).

Definition two_digits (n : Z) : string :=
  String (digit (n / 10)) (String (digit n) EmptyString).

Definition four_digits (n : Z) : string :=
  String (digit (n / 1000)) (String (digit (n / 100)) (two_digits n)).

(** [.dt.to_period("M").astype(str)], one cell: ["YYYY-MM"], and the
    string ["NaT"] for a null date. *)
Definition month_str (d : option timestamp) : string :=
  match d with
  | Some t => four_digits (ts_year t) ++ "-" ++ two_digits (ts_month t)
  | None => "NaT"
  end.

(** Both cells of a two-column key, when neither is null. *)
Definition key2 {A B : Type} (a : option A) (b : option B) : option (A * B) :=
  match a, b with
  | Some x, Some y => Some (x, y)
  | _, _ => None
  end.

(** [time_df.groupby(["month", "sentiment"]).size()], tab 1. *)
Definition monthly_trend (filtered : list row)
  : list ((string * string) * nat) :=
  GroupBy.size (GroupBy.cmp_pair String.compare String.compare)
    (fun r => key2 (Some (month_str (date r))) (sentiment r)) filtered.

(** [filtered_df.groupby(['club_name', 'sentiment']).size()], tab 2. *)
Definition club_counts (filtered : list row)
  : list ((string * string) * nat) :=
  GroupBy.size (GroupBy.cmp_pair String.compare String.compare)
    (fun r => key2 (club_name r) (sentiment r)) filtered.

(** [df.groupby(['year', 'sentiment']).size()], tab 3. *)
Definition yearly_trend (df : list row) : list ((Z * string) * nat) :=
  GroupBy.size (GroupBy.cmp_pair Z.compare String.compare)
    (fun r => key2 (year r) (sentiment r)) df.

(** The row lies in the month, has the sentiment. *)
Definition month_is (m : string) (r : row) : bool :=
  String.eqb (month_str (date r)) m.

Definition sentiment_is (s : string) (r : row) : bool :=
  match sentiment r with
  | Some s' => String.eqb s' s
  | None => false
  end.

(** The rows of a club with a sentiment. *)
Definition pair_rows (c s : string) (filtered : list row) : list row :=
  filter (fun r => club_is c r && sentiment_is s r) filtered.

(** [.astype(str)] of a text cell. *)
Definition astype_str (x : option string) : string :=
  match x with
  | Some s => s
  | None => "nan"
  end.

Definition extra_stops : list string :=
  ["https"; "co"; "amp"; "fc"; "barca"; "juve"; "madrid"; "bayern"; "real";
   "ucl"; "team"; "game"; "match"; "season"; "goal"; "win"; "rt"; "vs";
   "today"; "club"; "de"; "la"; "el"; "en"; "con"; "un"; "los"; "las";
   "para"; "del"; "und"; "die"; "das"; "der"; "mit"; "auf"; "zum"; "que";
   "je"; "au"].

(** What tab 4 does with the text: the warning, or a call of
    [WordCloud(...).generate] on the cleaned text. *)
Inductive word_cloud :=
| NoTextWarning
| Generate (cleaned : string).

Section WordCloud.

(** [stopwords.words('english')] of the NLTK corpus. *)
Variable english_stopwords : list string.

Definition stop_words : list string := english_stopwords ++ extra_stops.

Definition in_stop_words (w : string) : bool :=
  existsb (String.eqb w) stop_words.

(** [" ".join(filtered_df['text'].astype(str))] *)
Definition text_data (filtered : list row) : string :=
  PyStr.join " " (map (fun r => astype_str (text r)) filtered).

(** The [else] branch, lines 286-292. *)
Definition clean_text_data (s : string) : string :=
  let s := PyStr.lower s in
  let s := Re.sub (Re.literal_then_run "http" (fun c => negb (PyStr.isspace c)))
                  "" s in
  let s := Re.sub (Re.literal_then_run "@" PyStr.isword) "" s in
  let s := Re.sub (Re.char_class
                     (fun c => negb (PyStr.isalpha c || PyStr.isspace c)))
                  " " s in
  PyStr.join " "
    (filter (fun w => negb (in_stop_words w) && Nat.ltb 2 (String.length w))
            (PyStr.split s)).

(** The words lines 290-292 keep, before they are joined. *)
Definition cleaned_words (s : string) : list string :=
  let s := PyStr.lower s in
  let s := Re.sub (Re.literal_then_run "http" (fun c => negb (PyStr.isspace c)))
                  "" s in
  let s := Re.sub (Re.literal_then_run "@" PyStr.isword) "" s in
  let s := Re.sub (Re.char_class
                     (fun c => negb (PyStr.isalpha c || PyStr.isspace c)))
                  " " s in
  filter (fun w => negb (in_stop_words w) && Nat.ltb 2 (String.length w))
         (PyStr.split s).

(** Tab 4, lines 280-301. *)
Definition tab4 (filtered : list row) : word_cloud :=
  let t := text_data filtered in
  if Nat.eqb (String.length (PyStr.strip t)) 0 then NoTextWarning
  else Generate (clean_text_data t).

(** What the tab shows, given [WordCloud(...).generate]. *)
Inductive display (image : Type) :=
| Warning
| Image (i : image)
| Error.

Definition show_tab4 {image : Type} (generate : string -> outcome image)
  (filtered : list row) : display image :=
  match tab4 filtered with
  | NoTextWarning => Warning image
  | Generate cleaned =>
      match generate cleaned with
      | Returns i => Image image i
      | Raises => Error image
      end
  end.

(** The aggregates of one rerun of the script.  The charts of tab 1 that
    go through [sort_values] and [head] (sentiment volume, top clubs,
    sentiment balance) are built from [filtered_df] as well and are not
    part of the record. *)
Record views := mk_views {
  total_tweets : nat;
  positive : nat;
  negative : nat;
  sentiment_composition : list (option string);
  tab1_monthly_trend : list ((string * string) * nat);
  tab2_club_counts : list ((string * string) * nat);
  tab3_yearly_trend : list ((Z * string) * nat);
  tab4_word_cloud : word_cloud
}.

Definition render (df : list row) (selected_year : year_selection)
  (selected_club : string) : views :=
  let filtered := filtered_df df selected_year selected_club in
  {| total_tweets := List.length filtered;
     positive := count_sentiment "Positive" filtered;
     negative := count_sentiment "Negative" filtered;
     sentiment_composition := map sentiment filtered;
     tab1_monthly_trend := monthly_trend filtered;
     tab2_club_counts := club_counts filtered;
     tab3_yearly_trend := yearly_trend df;
     tab4_word_cloud := tab4 filtered |}.

End WordCloud.

(** A cell of [.unstack(fill_value=0)]: the count of the pair, 0 when
    the pair has no group. *)
Definition count_cell (g : list ((string * string) * nat))
  (club s : string) : nat :=
  match find (fun e => String.eqb (fst (fst e)) club
                       && String.eqb (snd (fst e)) s) g with
  | Some e => snd e
  | None => 0
  end.

(** The index and the columns of the unstacked table. *)
Definition unstack_index (g : list ((string * string) * nat)) : list string :=
  sorted String.compare (unique String.eqb (map (fun e => fst (fst e)) g)).

Definition unstack_columns (g : list ((string * string) * nat))
  : list string :=
  sorted String.compare (unique String.eqb (map (fun e => snd (fst e)) g)).

(** [x in ratio_df.columns], after [reset_index()]. *)
Definition in_columns (x : string) (g : list ((string * string) * nat))
  : bool :=
  existsb (String.eqb x) ("club_name" :: unstack_columns g).

Section Balance.

(** The float64 values of the ratio column and the division of two
    counts that fills it. *)
Variable float : Type.
Variable divide : nat -> nat -> float.

(** A row of [ratio_df] as the chart reads it: the club, its counts
    under the columns Positive and Negative, and the ratio. *)
Record balance_row := mk_balance_row {
  balance_club : string;
  balance_positive : nat;
  balance_negative : nat;
  sentiment_ratio : float
}.

(** [.sort_values("sentiment_ratio", ascending=False)]. *)
Variable sort_by_ratio : list balance_row -> list balance_row.

(** [ratio_df] with its ratio column, lines 186-193. *)
Definition ratio_rows (g : list ((string * string) * nat))
  : list balance_row :=
  map (fun c =>
         {| balance_club := c;
            balance_positive := count_cell g c "Positive";
            balance_negative := count_cell g c "Negative";
            sentiment_ratio :=
              divide (count_cell g c "Positive")
                     (count_cell g c "Negative" + 1) |})
      (unstack_index g).

(** Lines 186-194: [reset_index()] raises when a sentiment column is
    itself named [club_name]; without both columns Positive and
    Negative there is no chart; otherwise the chart is drawn from the
    twenty rows of highest ratio. *)
Definition sentiment_balance (filtered : list row)
  : outcome (option (list balance_row)) :=
  let g := club_counts filtered in
  if existsb (String.eqb "club_name") (unstack_columns g) then Raises
  else if in_columns "Positive" g && in_columns "Negative" g then
    Returns (Some (firstn 20 (sort_by_ratio (ratio_rows g))))
  else Returns None.

End Balance.

Arguments balance_club {float} _.
Arguments balance_positive {float} _.
Arguments balance_negative {float} _.
Arguments sentiment_ratio {float} _.
Arguments ratio_rows {float} divide g.
Arguments sentiment_balance {float} divide sort_by_ratio filtered.

(** The options of the two select boxes, lines 70 and 73. *)
Definition year_options (df : list row) : list year_selection :=
  AllYears :: map Year (years df).

Definition club_options (df : list row) : list string :=
  "All" :: clubs df.

Section Ranked.

(** [.sort_values(count_column, ascending=False)] of a table of grouped
    counts. *)
Variable sort_values : list (string * nat) -> list (string * nat).

(** [sentiment_counts], lines 121-126. *)
Definition sentiment_counts (filtered : list row) : list (string * nat) :=
  sort_values (GroupBy.size String.compare sentiment filtered).

(** [club_rank], lines 164-170. *)
Definition club_rank (filtered : list row) : list (string * nat) :=
  firstn 10 (sort_values (GroupBy.size String.compare club_name filtered)).

End Ranked.

End App.

(* ------------------------------------------------------------------ *)
(** ** analyze_sentiment.py: the printed summary *)

Module Summary.

Section ValueCounts.

(** The descending sort of [value_counts]. *)
Variable sort_values : list (string * nat) -> list (string * nat).

(** [df["sentiment"].value_counts()], line 30. *)
Definition value_counts (df : list AnalyzeSentiment.labeled_row)
  : list (string * nat) :=
  sort_values
    (GroupBy.size String.compare
       (fun r => Some (AnalyzeSentiment.sentiment r)) df).

End ValueCounts.

End Summary.

(* ------------------------------------------------------------------ *)
(** ** Instances of the library calls and sample tables *)

Module Examples.

(** A sampler that honours the contract of [DataFrame.sample]: the
    first [n] rows. *)
Definition first_rows (l : list PrepareData.row) (n : nat) (seed : Z)
  : list PrepareData.row :=
  firstn n l.

(** A date parser for cells of the form [YYYY-MM-DD]. *)
Definition number (cs : list ascii) : option Z :=
  fold_left
    (fun acc c =>
       match acc with
       | Some n =>
           if PyStr.isdigit c
           then Some (10 * n + Z.of_nat (nat_of_ascii c - 48))%Z
           else None
       | None => None
       end)
    cs (Some 0%Z).

Definition iso_date (s : string) : option timestamp :=
  match list_ascii_of_string s with
  | [y1; y2; y3; y4; "-"%char; m1; m2; "-"%char; d1; d2] =>
      match number [y1; y2; y3; y4], number [m1; m2], number [d1; d2] with
      | Some y, Some m, Some d => Some (mk_timestamp y m d)
      | _, _, _ => None
      end
  | _ => None
  end.

(** A raw export: one blank tweet, one tweet without text, then [n]
    tweets with text. *)
Definition raw_tweets (n : nat) : list PrepareData.raw_row :=
  PrepareData.mk_raw_row (Some "2023-05-01") (Some "   ") (Some "fc_barca")
  :: PrepareData.mk_raw_row (Some "yesterday") None (Some "real_madrid-fc")
  :: map (fun _ =>
            PrepareData.mk_raw_row (Some "2023-05-01") (Some "What a goal!")
                                   (Some "fc_barca"))
         (seq 0 n).

(** Classifiers. *)
Definition always_raises (s : string)
  : outcome (list AnalyzeSentiment.prediction) :=
  Raises.

Definition sst2 (s : string) : outcome (list AnalyzeSentiment.prediction) :=
  Returns [AnalyzeSentiment.mk_prediction
             (if String.eqb s "" then "NEGATIVE" else "POSITIVE")].

(** A model that fails on one of the tweets and answers on the others. *)
Definition moody (s : string) : outcome (list AnalyzeSentiment.prediction) :=
  if String.eqb s "Poor game" then Raises
  else Returns [AnalyzeSentiment.mk_prediction "POSITIVE"].


(** A sampled table with a blank and a null text among two tweets. *)
Definition sampled : list AnalyzeSentiment.row :=
  [AnalyzeSentiment.mk_row (Some "2023-05-01") (Some "What a goal!")
                           (Some "fc_barca");
   AnalyzeSentiment.mk_row (Some "2023-05-02") (Some "  ") (Some "fc_barca");
   AnalyzeSentiment.mk_row (Some "2023-05-03") None (Some "fc_barca");
   AnalyzeSentiment.mk_row None (Some "Poor game") (Some "real_madrid-fc")].

(** The two labeled rows of the normalisation example. *)
Definition labeled : list App.csv_row :=
  [App.mk_csv_row (Some "2023-05-01") (Some "What a goal!") (Some "fc_barca")
                  (Some "positive");
   App.mk_csv_row (Some "2022-01-10") (Some "Poor game")
                  (Some "real_madrid-fc") (Some "negative")].

(** The table [load_data] makes of them. *)
Definition loaded : list App.row := App.load_data iso_date labeled.

(** A labeled file whose second date does not parse and whose third
    date is missing. *)
Definition undated : list App.csv_row :=
  [App.mk_csv_row (Some "2023-05-01") (Some "What a goal!") (Some "fc_barca")
                  (Some "POSITIVE");
   App.mk_csv_row (Some "yesterday") (Some "Poor game")
                  (Some "real_madrid-fc") (Some "NEGATIVE");
   App.mk_csv_row None (Some "Last minute!") (Some "fc_barca")
                  (Some "POSITIVE")].

(** A labeled file whose only tweet is a score, a mention and a link. *)
Definition wordless : list App.csv_row :=
  [App.mk_csv_row (Some "2023-05-01") (Some "!!! 2-0 @fcb https://t.co/x1")
                  (Some "fc_barca") (Some "NEUTRAL")].

(** A labeled file with [n] clubs a, b, c, ...; each club has a
    positive and a negative tweet, and every third club a second
    positive one. *)
Definition league (n : nat) : list App.csv_row :=
  flat_map
    (fun i =>
       let club := Some (String (ascii_of_nat (97 + i)) EmptyString) in
       App.mk_csv_row (Some "2023-05-01") (Some "What a goal!") club
                      (Some "POSITIVE")
       :: App.mk_csv_row (Some "2023-05-02") (Some "Poor game") club
                         (Some "NEGATIVE")
       :: (if Nat.eqb (Nat.modulo i 3) 0
           then [App.mk_csv_row (Some "2023-05-03") (Some "Well played")
                                club (Some "POSITIVE")]
           else []))
    (seq 0 n).

(** A stand-in for the float division: the quotient of the counts. *)
Definition quotient (p q : nat) : nat := Nat.div p q.

(** A descending sort of the balance rows by their ratio, by insertion. *)
Fixpoint insert_by_ratio (x : App.balance_row nat)
  (l : list (App.balance_row nat)) : list (App.balance_row nat) :=
  match l with
  | [] => [x]
  | y :: l' =>
      if Nat.leb (App.sentiment_ratio y) (App.sentiment_ratio x) then x :: l
      else y :: insert_by_ratio x l'
  end.

Definition sort_by_ratio (l : list (App.balance_row nat))
  : list (App.balance_row nat) :=
  fold_right insert_by_ratio [] l.

(** A descending sort of grouped counts, by insertion. *)
Fixpoint insert_by_count (x : string * nat) (l : list (string * nat))
  : list (string * nat) :=
  match l with
  | [] => [x]
  | y :: l' =>
      if Nat.leb (snd y) (snd x) then x :: l
      else y :: insert_by_count x l'
  end.

Definition sort_by_count (l : list (string * nat)) : list (string * nat) :=
  fold_right insert_by_count [] l.

(** A word-cloud renderer that refuses a text without words. *)
Definition needs_a_word (s : string) : outcome string :=
  match PyStr.split s with
  | [] => Raises
  | _ => Returns s
  end.

End Examples.

(* ================================================================== *)
(** * Properties *)

(** ** Text cleaning *)

Module TextCleaningFacts.

Import TextCleaning.

Section Table.

Context {R : Type} (text : R -> option string).

Lemma good_textb_spec r : good_textb text r = true <-> good_text text r.
Proof.
  unfold good_textb, good_text, notna, strip_ne_empty.
  destruct (text r) as [s|]; simpl.
  - rewrite negb_true_iff. split.
    + intros H. exists s. split; [reflexivity|].
      intros E. rewrite E in H. discriminate.
    + intros (s' & [= <-] & Hs). apply String.eqb_neq. exact Hs.
  - split; [discriminate|]. intros (s & E & _). discriminate.
Qed.

Lemma clean_text_filter df : clean_text text df = filter (good_textb text) df.
Proof.
  unfold clean_text, drop_blank_text, dropna_text, good_textb.
  induction df as [|r df IH]; simpl; [reflexivity|].
  destruct (notna (text r)); simpl.
  - destruct (strip_ne_empty (text r)); simpl; now rewrite IH.
  - exact IH.
Qed.

Lemma clean_text_good df : Forall (good_text text) (clean_text text df).
Proof.
  rewrite clean_text_filter. apply Forall_forall. intros r Hr.
  apply filter_In in Hr. now apply good_textb_spec.
Qed.

Lemma clean_text_id df :
  Forall (good_text text) df -> clean_text text df = df.
Proof.
  rewrite clean_text_filter. induction 1 as [|r df Hr _ IH]; simpl.
  - reflexivity.
  - apply good_textb_spec in Hr. now rewrite Hr, IH.
Qed.

End Table.

End TextCleaningFacts.

(* ------------------------------------------------------------------ *)
(** ** The Sampler *)

Module SamplerFacts.

Import PrepareData TextCleaning TextCleaningFacts.

Lemma first_rows_contract (l : list row) (n : nat) (seed : Z) :
  n <= List.length l ->
  List.length (Examples.first_rows l n seed) = n /\
  exists rest, Permutation l (Examples.first_rows l n seed ++ rest).
Proof.
  intros Hn. unfold Examples.first_rows. split.
  - rewrite length_firstn. lia.
  - exists (skipn n l). now rewrite firstn_skipn.
Qed.

(** The blank tweet and the tweet without text of the sample export are
    dropped, the others are kept. *)
Lemma raw_tweets_cleaned (n : nat) :
  List.length (df_clean Examples.iso_date (Examples.raw_tweets n)) = n.
Proof.
  unfold df_clean, Examples.raw_tweets. rewrite clean_text_filter.
  cbn [map filter].
  assert (Hblank : forall d c,
             good_textb text (mk_row d (Some "   ") c) = false)
    by reflexivity.
  assert (Hnull : forall d c, good_textb text (mk_row d None c) = false)
    by reflexivity.
  assert (Hgood : forall d c,
             good_textb text (mk_row d (Some "What a goal!") c) = true)
    by reflexivity.
  unfold select_rename.
  cbn [tweet_full_text tweet_created_at user_screen_name].
  rewrite Hblank, Hnull.
  rewrite <- (length_seq n 0) at 2. generalize (seq 0 n). intros l.
  induction l as [|i l IH]; cbn [map filter List.length]; [reflexivity|].
  cbn [tweet_full_text tweet_created_at user_screen_name].
  rewrite Hgood. cbn [List.length]. now rewrite IH.
Qed.

Section Props.

Variable to_datetime : string -> option timestamp.
Variable sample : list row -> nat -> Z -> list row.

(** [DataFrame.sample] without replacement: [n] of the rows, each taken
    at most as often as it occurs. *)
Hypothesis sample_contract :
  forall (l : list row) (n : nat) (seed : Z),
    n <= List.length l ->
    List.length (sample l n seed) = n /\
    exists rest, Permutation l (sample l n seed ++ rest).

Lemma sample_incl l n seed r :
  n <= List.length l -> In r (sample l n seed) -> In r l.
Proof.
  intros Hn Hr. destruct (sample_contract l n seed Hn) as [_ [rest HP]].
  apply Permutation_sym in HP. apply (Permutation_in _ HP).
  apply in_or_app. now left.
Qed.

Lemma prepare_data_incl df r :
  In r (prepare_data to_datetime sample df) -> In r (df_clean to_datetime df).
Proof.
  unfold prepare_data.
  destruct (Nat.ltb 1500 (List.length (df_clean to_datetime df))) eqn:E.
  - apply Nat.ltb_lt in E. apply sample_incl. lia.
  - trivial.
Qed.

(** C7: above 1500 cleaned rows the output is the 1500-row sample drawn
    from the cleaned rows with seed 42, a sub-collection of them; up to
    1500 cleaned rows the output is the cleaned rows. *)
Theorem sampler_bounded_sample (df : list raw_row) :
  let cleaned := df_clean to_datetime df in
  let out := prepare_data to_datetime sample df in
  (1500 < List.length cleaned ->
     out = sample cleaned 1500 42%Z /\
     List.length out = 1500 /\
     (exists rest, Permutation cleaned (out ++ rest)) /\
     incl out cleaned)
  /\ (List.length cleaned <= 1500 -> out = cleaned).
Proof.
  intros cleaned out. subst out. unfold prepare_data. fold cleaned. split.
  - intros Hlt. assert (Hb : Nat.ltb 1500 (List.length cleaned) = true)
      by now apply Nat.ltb_lt.
    rewrite Hb.
    destruct (sample_contract cleaned 1500 42%Z) as [Hlen Hperm]; [lia|].
    repeat split; auto.
    intros r Hr. apply (sample_incl cleaned 1500 42%Z); [lia|exact Hr].
  - intros Hle. assert (Hb : Nat.ltb 1500 (List.length cleaned) = false)
      by (apply Nat.ltb_ge; lia).
    now rewrite Hb.
Qed.

(** C8: no row of the Sampler's output has a null text or a text that
    is empty once trimmed. *)
Theorem sampler_no_blank_text (df : list raw_row) :
  Forall (good_text text) (prepare_data to_datetime sample df).
Proof.
  apply Forall_forall. intros r Hr. apply prepare_data_incl in Hr.
  unfold df_clean in Hr.
  pose proof (clean_text_good text (map (select_rename to_datetime) df)) as H.
  rewrite Forall_forall in H. now apply H.
Qed.

End Props.

Lemma sampler_bounded_sample_witness :
  List.length
    (prepare_data Examples.iso_date Examples.first_rows
                  (Examples.raw_tweets 1501)) = 1500.
Proof.
  assert (Hlt : 1500 < List.length
                         (df_clean Examples.iso_date
                                   (Examples.raw_tweets 1501)))
    by (rewrite raw_tweets_cleaned; apply Nat.lt_succ_diag_r).
  destruct (sampler_bounded_sample Examples.iso_date Examples.first_rows
              first_rows_contract (Examples.raw_tweets 1501)) as [H _].
  destruct (H Hlt) as (_ & Hlen & _). exact Hlen.
Defined.

Lemma sampler_no_blank_text_witness :
  Forall (good_text text)
    (prepare_data Examples.iso_date Examples.first_rows
                  (Examples.raw_tweets 3)).
Proof.
  exact (sampler_no_blank_text Examples.iso_date Examples.first_rows
           first_rows_contract (Examples.raw_tweets 3)).
Defined.

End SamplerFacts.

(* ------------------------------------------------------------------ *)
(** ** Slices *)

Module PyStrFacts.

Import PyStr.

Lemma slice_to_length (n : nat) (s : string) :
  String.length (slice_to n s) <= n.
Proof.
  revert s. induction n as [|n IH]; intros [|c s]; simpl; try lia.
  specialize (IH s). lia.
Qed.

Lemma slice_to_from (n : nat) (s : string) :
  s = slice_to n s ++ slice_from n s.
Proof.
  revert s. induction n as [|n IH]; intros [|c s]; simpl; try reflexivity.
  now rewrite <- IH.
Qed.

Lemma slice_to_short (n : nat) (s : string) :
  String.length s <= n -> slice_to n s = s.
Proof.
  revert s. induction n as [|n IH]; intros [|c s]; simpl; intros H;
    try reflexivity; try lia.
  f_equal. apply IH. lia.
Qed.

End PyStrFacts.

(* ------------------------------------------------------------------ *)
(** ** The Classifier *)

Module ClassifierFacts.

Import AnalyzeSentiment TextCleaning TextCleaningFacts.

Section Props.

Variable sentiment_analyzer : string -> outcome (list prediction).

Abbreviation safe_predict := (safe_predict sentiment_analyzer).
Abbreviation analyze_sentiment := (analyze_sentiment sentiment_analyzer).

Lemma analyze_tweets (df : list row) :
  map tweet (analyze_sentiment df) = clean df.
Proof.
  unfold AnalyzeSentiment.analyze_sentiment. rewrite map_map. cbn [tweet].
  apply map_id.
Qed.

Lemma analyze_length (df : list row) :
  List.length (analyze_sentiment df) = List.length (clean df).
Proof. now rewrite <- analyze_tweets, length_map. Qed.

Lemma analyze_sentiments (df : list row) :
  map sentiment (analyze_sentiment df)
  = map (fun r => safe_predict (text r)) (clean df).
Proof.
  unfold AnalyzeSentiment.analyze_sentiment. now rewrite map_map.
Qed.


(** The label [safe_predict] gives is the first answer of the model on
    the first 512 characters of the text, and NEUTRAL when the call
    raises or answers nothing. *)
Lemma safe_predict_label (t : option string) :
  safe_predict t
  = match sentiment_analyzer (PyStr.slice_to 512 (str t)) with
    | Returns (p :: _) => label p
    | _ => "NEUTRAL"
    end.
Proof.
  unfold AnalyzeSentiment.safe_predict, submitted.
  now destruct (sentiment_analyzer (PyStr.slice_to 512 (str t)))
    as [[|p ps]|].
Qed.


(** C6: the model is called on the first 512 characters of the row's
    text, no more, and the label of the row is what it answers there; a
    call that raises yields NEUTRAL for that row, while every other row
    keeps the label the model gives it, so no failure leaves the batch;
    under a model that always raises every label is NEUTRAL. *)
Theorem classifier_truncates_and_isolates (df : list row) :
  (forall s : string,
      submitted (Some s) = PyStr.slice_to 512 s /\
      String.length (submitted (Some s)) <= 512 /\
      s = submitted (Some s) ++ PyStr.slice_from 512 s /\
      (String.length s <= 512 -> submitted (Some s) = s)) /\
  (forall t,
      safe_predict t
      = match sentiment_analyzer (PyStr.slice_to 512 (str t)) with
        | Returns (p :: _) => label p
        | _ => "NEUTRAL"
        end) /\
  (forall (other : string -> outcome (list prediction)) t,
      other (PyStr.slice_to 512 (str t))
      = sentiment_analyzer (PyStr.slice_to 512 (str t)) ->
      AnalyzeSentiment.safe_predict other t = safe_predict t) /\
  (forall t t', submitted t = submitted t' ->
                safe_predict t = safe_predict t') /\
  (forall t, sentiment_analyzer (submitted t) = Raises ->
             safe_predict t = "NEUTRAL") /\
  (forall t p ps,
      sentiment_analyzer (PyStr.slice_to 512 (str t)) = Returns (p :: ps) ->
      safe_predict t = label p) /\
  map tweet (analyze_sentiment df) = clean df /\
  map sentiment (analyze_sentiment df)
  = map (fun r =>
           match sentiment_analyzer (PyStr.slice_to 512 (str (text r))) with
           | Returns (p :: _) => label p
           | _ => "NEUTRAL"
           end)
        (clean df) /\
  (forall r, In r (analyze_sentiment df) ->
     (sentiment_analyzer (PyStr.slice_to 512 (str (text (tweet r)))) = Raises
      -> sentiment r = "NEUTRAL") /\
     (forall p ps,
         sentiment_analyzer (PyStr.slice_to 512 (str (text (tweet r))))
         = Returns (p :: ps) ->
         sentiment r = label p)) /\
  ((forall s, sentiment_analyzer s = Raises) ->
   map sentiment (analyze_sentiment df)
   = repeat "NEUTRAL" (List.length (clean df))).
Proof.
  split; [|split; [|split; [|split; [|split; [|split; [|split;
    [|split; [|split]]]]]]]].
  - intros s. repeat split.
    + apply PyStrFacts.slice_to_length.
    + apply PyStrFacts.slice_to_from.
    + apply PyStrFacts.slice_to_short.
  - apply safe_predict_label.
  - intros other t E. rewrite safe_predict_label.
    unfold AnalyzeSentiment.safe_predict, submitted. rewrite E.
    now destruct (sentiment_analyzer (PyStr.slice_to 512 (str t)))
      as [[|p ps]|].
  - intros t t' E. unfold AnalyzeSentiment.safe_predict. now rewrite E.
  - intros t E. unfold AnalyzeSentiment.safe_predict. now rewrite E.
  - intros t p ps E. now rewrite safe_predict_label, E.
  - apply analyze_tweets.
  - rewrite analyze_sentiments. apply map_ext. intros r.
    apply safe_predict_label.
  - intros r Hr. unfold AnalyzeSentiment.analyze_sentiment in Hr.
    apply in_map_iff in Hr. destruct Hr as (r0 & <- & _).
    cbn [tweet sentiment]. rewrite safe_predict_label. split.
    + now intros ->.
    + now intros p ps ->.
  - intros Hraise. rewrite analyze_sentiments.
    induction (clean df) as [|r l IH]; simpl; [reflexivity|].
    rewrite IH. f_equal. unfold AnalyzeSentiment.safe_predict.
    now rewrite Hraise.
Qed.

(** C10: the Classifier cleans the text column as the Sampler does, so
    no output row has a null or blank text, and a table that already
    meets that condition loses no row. *)
Theorem classifier_reapplies_cleaning (df : list row) :
  clean df = filter (good_textb text) df /\
  Forall (fun r => good_text text (tweet r)) (analyze_sentiment df) /\
  (Forall (good_text text) df ->
   clean df = df /\
   map tweet (analyze_sentiment df) = df /\
   List.length (analyze_sentiment df) = List.length df).
Proof.
  split; [apply clean_text_filter|]. split.
  - rewrite <- Forall_map with (f := tweet) (P := good_text text).
    rewrite analyze_tweets. apply clean_text_good.
  - intros Hgood. pose proof (clean_text_id text df Hgood) as Hid.
    fold (clean df) in Hid. repeat split.
    + exact Hid.
    + now rewrite analyze_tweets.
    + now rewrite analyze_length, Hid.
Qed.

End Props.




Lemma classifier_truncates_and_isolates_witness :
  map sentiment (analyze_sentiment Examples.always_raises Examples.sampled)
  = ["NEUTRAL"; "NEUTRAL"] /\
  map sentiment (analyze_sentiment Examples.moody Examples.sampled)
  = ["POSITIVE"; "NEUTRAL"].
Proof.
  destruct (classifier_truncates_and_isolates Examples.always_raises
              Examples.sampled) as (_ & _ & _ & _ & _ & _ & _ & _ & _ & H).
  destruct (classifier_truncates_and_isolates Examples.moody
              Examples.sampled) as (_ & _ & _ & _ & _ & _ & _ & Hrows & _).
  split; [exact (H (fun _ => eq_refl)) | exact Hrows].
Defined.

Lemma classifier_reapplies_cleaning_witness :
  clean (clean Examples.sampled) = clean Examples.sampled.
Proof.
  destruct (classifier_reapplies_cleaning Examples.always_raises
              (clean Examples.sampled)) as (_ & _ & H).
  apply H. apply clean_text_good.
Defined.

End ClassifierFacts.

(* ------------------------------------------------------------------ *)
(** ** Grouped counts *)

Module GroupByFacts.

Import GroupBy.

Section Size.

Context {K : Type} (cmp : K -> K -> comparison).

Lemma total_bump (k : K) (g : list (K * nat)) :
  total (bump cmp k g) = S (total g).
Proof.
  induction g as [|[k' n] g IH]; simpl; [reflexivity|].
  destruct (cmp k k'); simpl; try reflexivity.
  rewrite IH. lia.
Qed.

Lemma total_fold (keys : list K) (g : list (K * nat)) :
  total (fold_left (fun g k => bump cmp k g) keys g)
  = List.length keys + total g.
Proof.
  revert g. induction keys as [|k keys IH]; intros g; simpl; [reflexivity|].
  rewrite IH, total_bump. lia.
Qed.

(** Every row with a complete key is counted once. *)
Lemma total_size {R : Type} (key : R -> option K) (df : list R) :
  total (size cmp key df)
  = List.length (filter (fun r => TextCleaning.notna (key r)) df).
Proof.
  unfold size, size_of_keys. rewrite total_fold. simpl. rewrite Nat.add_0_r.
  induction df as [|r df IH]; simpl; [reflexivity|].
  destruct (key r); simpl; now rewrite ?IH.
Qed.

(** Under an order whose [Eq] is equality, a key that occurs has a
    group of its own with a positive count. *)
Hypothesis cmp_eq : forall a b : K, cmp a b = Eq -> a = b.

Lemma bump_counts (k : K) (g : list (K * nat)) :
  exists n, In (k, S n) (bump cmp k g).
Proof.
  induction g as [|[k' n] g IH]; simpl.
  - exists 0. now left.
  - destruct (cmp k k') eqn:E.
    + apply cmp_eq in E. subst k'. exists n. now left.
    + exists 0. now left.
    + destruct IH as [m Hm]. exists m. now right.
Qed.

Lemma bump_keeps (k k0 : K) (n : nat) (g : list (K * nat)) :
  In (k0, S n) g -> exists m, In (k0, S m) (bump cmp k g).
Proof.
  induction g as [|[k' n'] g IH]; simpl; [contradiction|]. intros [E|H].
  - injection E as -> ->.
    destruct (cmp k k0);
      [exists (S n); now left | exists n; right; now left | exists n; now left].
  - destruct (cmp k k').
    + exists n. now right.
    + exists n. right. now right.
    + destruct (IH H) as [m Hm]. exists m. now right.
Qed.

Lemma fold_counts (keys : list K) (k : K) (g : list (K * nat)) :
  In k keys \/ (exists n, In (k, S n) g) ->
  exists n, In (k, S n) (fold_left (fun g k => bump cmp k g) keys g).
Proof.
  revert g. induction keys as [|k' keys IH]; intros g; simpl.
  - intros [[]|H]. exact H.
  - intros [[->|Hin]|[n Hn]]; apply IH.
    + right. apply bump_counts.
    + now left.
    + right. now apply bump_keeps with (n := n).
Qed.

Lemma size_counts {R : Type} (key : R -> option K) (df : list R) (r : R)
  (k : K) :
  In r df -> key r = Some k -> exists n, In (k, S n) (size cmp key df).
Proof.
  intros Hr Hk. unfold size, size_of_keys. apply fold_counts. left.
  apply in_flat_map. exists r. split; [exact Hr|]. rewrite Hk. now left.
Qed.

End Size.

Lemma cmp_pair_eq {A B : Type} (ca : A -> A -> comparison)
  (cb : B -> B -> comparison) :
  (forall a a', ca a a' = Eq -> a = a') ->
  (forall b b', cb b b' = Eq -> b = b') ->
  forall x y, cmp_pair ca cb x y = Eq -> x = y.
Proof.
  intros Ha Hb [a b] [a' b']. unfold cmp_pair. cbn [fst snd].
  destruct (ca a a') eqn:E; try discriminate.
  intros E'. apply Ha in E. apply Hb in E'. now subst.
Qed.

End GroupByFacts.

(* ------------------------------------------------------------------ *)
(** ** The Dashboard: filtering and the views *)

Module DashboardFacts.

Import App.

Lemma filter_filter {A : Type} (p q : A -> bool) (l : list A) :
  filter q (filter p l) = filter (fun x => p x && q x) l.
Proof.
  induction l as [|x l IH]; simpl; [reflexivity|].
  destruct (p x); simpl; [destruct (q x)|]; now rewrite IH.
Qed.

Lemma filter_true {A : Type} (l : list A) : filter (fun _ => true) l = l.
Proof. induction l as [|x l IH]; simpl; now rewrite ?IH. Qed.

Lemma filtered_df_matches (df : list row) (selected_year : year_selection)
  (selected_club : string) :
  filtered_df df selected_year selected_club
  = filter (matches_selection selected_year selected_club) df.
Proof.
  unfold filtered_df, matches_selection, club_constraint.
  destruct (String.eqb selected_club "All"); cbn [negb];
    destruct selected_year as [|y]; cbn [year_constraint].
  - now rewrite filter_true.
  - apply filter_ext. intros r. now rewrite andb_true_r.
  - reflexivity.
  - apply filter_filter.
Qed.

(** C9: a dimension set to "All" is not constrained, any other selection
    is an equality on that dimension, the two constraints hold together,
    and ("All", "All") gives back the loaded table. *)
Theorem dashboard_filter_conjunction (df : list row)
  (selected_year : year_selection) (selected_club : string) :
  filtered_df df selected_year selected_club
  = filter (matches_selection selected_year selected_club) df /\
  (forall r,
      In r (filtered_df df selected_year selected_club) <->
      In r df /\
      (selected_year = AllYears \/
       exists y, selected_year = Year y /\ year r = Some y) /\
      (selected_club = "All" \/ club_name r = Some selected_club)) /\
  filtered_df df AllYears "All" = df /\
  List.length (filtered_df df AllYears "All") = List.length df.
Proof.
  split; [apply filtered_df_matches|]. split; [|split; reflexivity].
  intros r. rewrite filtered_df_matches, filter_In.
  unfold matches_selection. rewrite andb_true_iff.
  assert (HY : year_constraint selected_year r = true <->
               (selected_year = AllYears \/
                exists y, selected_year = Year y /\ year r = Some y)).
  { unfold year_constraint, year_is. destruct selected_year as [|y].
    - split; auto.
    - destruct (year r) as [y'|]; split.
      + intros E. apply Z.eqb_eq in E. subst. right. now exists y.
      + intros [E|(y0 & [= <-] & [= <-])]; [discriminate|]. apply Z.eqb_refl.
      + discriminate.
      + intros [E|(y0 & _ & E)]; discriminate. }
  assert (HC : club_constraint selected_club r = true <->
               (selected_club = "All" \/ club_name r = Some selected_club)).
  { unfold club_constraint, club_is.
    destruct (String.eqb selected_club "All") eqn:EA.
    - apply String.eqb_eq in EA. split; auto.
    - apply String.eqb_neq in EA. destruct (club_name r) as [c'|]; split.
      + intros E. apply String.eqb_eq in E. subst. now right.
      + intros [E|[= <-]]; [contradiction|]. apply String.eqb_refl.
      + discriminate.
      + intros [E|E]; [contradiction|discriminate]. }
  rewrite HY, HC. reflexivity.
Qed.

Section Views.

Variable english_stopwords : list string.

(** The views of tabs 1, 2 and 4 are made of the filtered rows. *)
Lemma views_of_filtered (df df' : list row) (y y' : year_selection)
  (c c' : string) :
  filtered_df df y c = filtered_df df' y' c' ->
  let v := render english_stopwords df y c in
  let v' := render english_stopwords df' y' c' in
  total_tweets v = total_tweets v' /\
  positive v = positive v' /\
  negative v = negative v' /\
  sentiment_composition v = sentiment_composition v' /\
  tab1_monthly_trend v = tab1_monthly_trend v' /\
  tab2_club_counts v = tab2_club_counts v' /\
  tab4_word_cloud v = tab4_word_cloud v'.
Proof.
  intros E. unfold render. cbn. rewrite E. repeat split.
Qed.

(** The yearly trend of tab 3 is made of the whole table. *)
Lemma yearly_trend_of_whole_table (df : list row) (y : year_selection)
  (c : string) :
  tab3_yearly_trend (render english_stopwords df y c) = yearly_trend df.
Proof. reflexivity. Qed.

(** The monthly trend counts every filtered row that has a sentiment,
    dated or not. *)
Lemma monthly_trend_total (filtered : list row) :
  GroupBy.total (monthly_trend filtered)
  = List.length (filter (fun r => TextCleaning.notna (sentiment r)) filtered).
Proof.
  unfold monthly_trend. rewrite GroupByFacts.total_size.
  apply f_equal, filter_ext. intros r. unfold key2.
  now destruct (sentiment r).
Qed.

(** A filtered row without a date is counted under the key "NaT". *)
Lemma monthly_trend_null_date (filtered : list row) (r : row) (s : string) :
  In r filtered -> date r = None -> sentiment r = Some s ->
  exists n, In (("NaT", s), S n) (monthly_trend filtered).
Proof.
  intros Hr Hd Hs. unfold monthly_trend.
  apply GroupByFacts.size_counts with (r := r); [| exact Hr |].
  - apply GroupByFacts.cmp_pair_eq; apply String.compare_eq_iff.
  - now rewrite Hd, Hs.
Qed.

End Views.

(** C2: the yearly trend of tab 3 is computed from the whole table,
    whatever the selection.  At the club selection "Barca" on the two
    example rows the filtered view is the Barca row alone, and so are
    the club counts of tab 2, while the yearly trend still counts the
    Real Madrid row and equals the trend shown for ("All", "All"). *)
Theorem yearly_trend_ignores_selection :
  (forall english_stopwords df selected_year selected_club,
      tab3_yearly_trend
        (render english_stopwords df selected_year selected_club)
      = yearly_trend df) /\
  let v := render [] Examples.loaded AllYears "Barca" in
  total_tweets v = 1 /\
  tab2_club_counts v = [(("Barca", "Positive"), 1)] /\
  tab3_yearly_trend v
  = [((2022%Z, "Negative"), 1); ((2023%Z, "Positive"), 1)] /\
  tab3_yearly_trend v
  = tab3_yearly_trend (render [] Examples.loaded AllYears "All").
Proof.
  split; [intros; apply yearly_trend_of_whole_table|].
  vm_compute. repeat split.
Qed.

(** C3: a dated row is keyed by the year and month of its date, but a
    row without a date is not left out: it is counted under the key
    "NaT", and the monthly trend counts every filtered row that has a
    sentiment.  On a table whose second and third rows have no date,
    the two undated rows make up two "NaT" buckets. *)
Theorem monthly_trend_keeps_null_dates :
  (forall t, month_str (Some t)
             = four_digits (ts_year t) ++ "-" ++ two_digits (ts_month t)) /\
  (forall filtered r s,
      In r filtered -> date r = None -> sentiment r = Some s ->
      exists n, In (("NaT", s), S n) (monthly_trend filtered)) /\
  (forall filtered,
      GroupBy.total (monthly_trend filtered)
      = List.length
          (filter (fun r => TextCleaning.notna (sentiment r)) filtered)) /\
  let df := load_data Examples.iso_date Examples.undated in
  map date df = [Some (mk_timestamp 2023 5 1); None; None] /\
  monthly_trend (filtered_df df AllYears "All")
  = [(("2023-05", "Positive"), 1);
     (("NaT", "Negative"), 1);
     (("NaT", "Positive"), 1)].
Proof.
  split; [reflexivity|]. split; [apply monthly_trend_null_date|].
  split; [apply monthly_trend_total|].
  vm_compute. split; reflexivity.
Qed.

Lemma monthly_trend_keeps_null_dates_witness :
  exists n,
    In (("NaT", "Negative"), S n)
       (monthly_trend (load_data Examples.iso_date Examples.undated)).
Proof.
  destruct monthly_trend_keeps_null_dates as (_ & H & _).
  apply (H _ (load_row Examples.iso_date
                (mk_csv_row (Some "yesterday") (Some "Poor game")
                            (Some "real_madrid-fc") (Some "NEGATIVE")))).
  - right. left. reflexivity.
  - reflexivity.
  - reflexivity.
Defined.

End DashboardFacts.

(* ------------------------------------------------------------------ *)
(** ** Trimming, title case and substitution *)

Module StringFacts.

Import PyStr.

(** Facts on single characters, by enumeration of the 256 of them. *)
Ltac by_cases_on c :=
  destruct c as [[] [] [] [] [] [] [] []]; reflexivity.

Lemma isspace_upper_char c : isspace (upper_char c) = isspace c.
Proof. by_cases_on c. Qed.

Lemma isspace_lower_char c : isspace (lower_char c) = isspace c.
Proof. by_cases_on c. Qed.

Lemma isalpha_upper_char c : isalpha (upper_char c) = isalpha c.
Proof. by_cases_on c. Qed.

Lemma isalpha_lower_char c : isalpha (lower_char c) = isalpha c.
Proof. by_cases_on c. Qed.

Lemma upper_char_idem c : upper_char (upper_char c) = upper_char c.
Proof. by_cases_on c. Qed.

Lemma lower_char_idem c : lower_char (lower_char c) = lower_char c.
Proof. by_cases_on c. Qed.

Lemma isspace_alpha_disjoint c : isspace c && isalpha c = false.
Proof. by_cases_on c. Qed.

Lemma isspace_not_alpha c : isspace c = true -> isalpha c = false.
Proof.
  intros H. pose proof (isspace_alpha_disjoint c) as D.
  now rewrite H in D.
Qed.

Lemma separator_upper_char c :
  App.is_separator (upper_char c) = App.is_separator c.
Proof. by_cases_on c. Qed.

Lemma separator_lower_char c :
  App.is_separator (lower_char c) = App.is_separator c.
Proof. by_cases_on c. Qed.

Lemma title_from_cons b c s :
  title_from b (String c s) = String (title_char b c) (title_from (isalpha c) s).
Proof. reflexivity. Qed.

Lemma isalpha_title_char b c : isalpha (title_char b c) = isalpha c.
Proof.
  destruct b; [apply isalpha_lower_char | apply isalpha_upper_char].
Qed.

Lemma isspace_title_char b c : isspace (title_char b c) = isspace c.
Proof.
  destruct b; [apply isspace_lower_char | apply isspace_upper_char].
Qed.

Lemma title_char_idem b c : title_char b (title_char b c) = title_char b c.
Proof.
  destruct b; [apply lower_char_idem | apply upper_char_idem].
Qed.

Lemma title_from_idem b s : title_from b (title_from b s) = title_from b s.
Proof.
  revert b. induction s as [|c s IH]; intros b; [reflexivity|].
  rewrite !title_from_cons, isalpha_title_char, title_char_idem.
  now rewrite IH.
Qed.

Lemma lstrip_title s : lstrip (title s) = title (lstrip s).
Proof.
  unfold title. induction s as [|c s IH]; [reflexivity|].
  rewrite title_from_cons. cbn [lstrip]. rewrite isspace_title_char.
  destruct (isspace c) eqn:E.
  - now rewrite (isspace_not_alpha c E).
  - reflexivity.
Qed.

Lemma rstrip_title_from b s :
  rstrip (title_from b s) = title_from b (rstrip s).
Proof.
  revert b. induction s as [|c s IH]; intros b; [reflexivity|].
  rewrite title_from_cons. cbn [rstrip]. rewrite IH.
  destruct (rstrip s) as [|d r].
  - cbn [title_from]. rewrite isspace_title_char.
    now destruct (isspace c).
  - rewrite (title_from_cons (isalpha c) d r). now rewrite !title_from_cons.
Qed.

Lemma strip_title s : strip (title s) = title (strip s).
Proof.
  unfold strip. rewrite lstrip_title. apply rstrip_title_from.
Qed.

Lemma lstrip_head s :
  lstrip s = EmptyString \/
  exists c s', lstrip s = String c s' /\ isspace c = false.
Proof.
  induction s as [|c s IH]; [now left|]. cbn [lstrip].
  destruct (isspace c) eqn:E; [exact IH|]. right. now exists c, s.
Qed.

Lemma rstrip_idem s : rstrip (rstrip s) = rstrip s.
Proof.
  induction s as [|c s IH]; [reflexivity|]. cbn [rstrip].
  destruct (rstrip s) as [|d r] eqn:E.
  - destruct (isspace c) eqn:Ec; [reflexivity|]. cbn [rstrip]. now rewrite Ec.
  - change (rstrip (String c (String d r))) with
      (match rstrip (String d r) with
       | EmptyString => if isspace c then EmptyString else String c EmptyString
       | r0 => String c r0
       end).
    now rewrite IH.
Qed.

Lemma strip_idem s : strip (strip s) = strip s.
Proof.
  unfold strip. destruct (lstrip_head s) as [-> | (c & s' & -> & Ec)].
  - reflexivity.
  - assert (H : exists r, rstrip (String c s') = String c r).
    { cbn [rstrip]. destruct (rstrip s'); [rewrite Ec|]; eauto. }
    destruct H as [r Hr]. rewrite Hr. cbn [lstrip]. rewrite Ec.
    rewrite <- Hr. apply rstrip_idem.
Qed.

(** Classes of characters that the string methods keep. *)
Section AllChars.

Variable p : ascii -> bool.

Lemma all_chars_lstrip s : all_chars p s = true -> all_chars p (lstrip s) = true.
Proof.
  induction s as [|c s IH]; [trivial|]. intros H. cbn [lstrip].
  destruct (isspace c); [|exact H]. simpl in H.
  apply andb_true_iff in H. now apply IH.
Qed.

Lemma all_chars_rstrip s : all_chars p s = true -> all_chars p (rstrip s) = true.
Proof.
  induction s as [|c s IH]; [trivial|]. intros H. simpl in H.
  apply andb_true_iff in H. destruct H as [Hc Hs]. specialize (IH Hs).
  cbn [rstrip]. destruct (rstrip s) as [|d r].
  - destruct (isspace c); [reflexivity|]. simpl. now rewrite Hc.
  - simpl. simpl in IH. now rewrite Hc, IH.
Qed.

Lemma all_chars_strip s : all_chars p s = true -> all_chars p (strip s) = true.
Proof. intros H. unfold strip. now apply all_chars_rstrip, all_chars_lstrip. Qed.

Lemma all_chars_title_from b s :
  (forall c, p (upper_char c) = p c) ->
  (forall c, p (lower_char c) = p c) ->
  all_chars p (title_from b s) = all_chars p s.
Proof.
  intros Hu Hl. revert b. induction s as [|c s IH]; intros b; [reflexivity|].
  rewrite title_from_cons. simpl. rewrite IH. f_equal.
  destruct b; [apply Hl | apply Hu].
Qed.

(** Deleting matches keeps the class of what is left. *)
Lemma all_chars_sub_delete matcher k s :
  all_chars p s = true -> all_chars p (Re.sub_from matcher "" k s) = true.
Proof.
  revert k. induction s as [|c s IH]; intros k H; [reflexivity|].
  simpl in H. apply andb_true_iff in H. destruct H as [Hc Hs].
  cbn [Re.sub_from]. destruct k as [|k]; [|now apply IH].
  destruct (matcher (String c s)) as [[|n]|]; try (now apply IH);
    simpl; rewrite Hc; now apply IH.
Qed.

End AllChars.

(** Behind [[_-]] -> " " no separator is left. *)
Lemma replace_separators_none s :
  all_chars (fun c => negb (App.is_separator c)) (App.replace_separators s)
  = true.
Proof.
  unfold App.replace_separators, Re.sub.
  induction s as [|c s IH]; [reflexivity|].
  cbn [Re.sub_from Re.char_class].
  destruct (App.is_separator c) eqn:E; simpl; rewrite ?E; exact IH.
Qed.

End StringFacts.

(* ------------------------------------------------------------------ *)
(** ** The Dashboard: normalisation at load and the word cloud *)

Module LoadFacts.

Import PyStr App.

(** Read the characters of a token off an equation on its lower case. *)
Ltac split_token :=
  repeat match goal with
    | H : lower ?t = String _ _ |- _ =>
        destruct t; [discriminate H | cbn [lower] in H; injection H as ? H]
    | H : lower ?t = EmptyString |- _ =>
        destruct t; [clear H | discriminate H]
    end.

(** Once a match has been found the scan passes over it. *)
Lemma sub_from_skip matcher repl (s rest : string) :
  Re.sub_from matcher repl (String.length s) (s ++ rest)
  = Re.sub_from matcher repl 0 rest.
Proof.
  induction s as [|c s IH]; [now destruct rest|]. exact IH.
Qed.

Lemma sub_from_match matcher repl (c : ascii) (t rest : string) :
  matcher (String c t ++ rest) = Some (String.length (String c t)) ->
  Re.sub_from matcher repl 0 (String c t ++ rest)
  = repl ++ Re.sub_from matcher repl 0 rest.
Proof.
  intros H. cbn [append Re.sub_from] in *. rewrite H. cbn [String.length].
  f_equal. apply sub_from_skip.
Qed.

(** A text that starts with a boilerplate token, in whatever case, is
    matched by that alternative and by no earlier one. *)
Lemma alternation_head (tok tok' rest : string) :
  In tok boilerplate -> lower tok' = lower tok ->
  Re.alternation true boilerplate (tok' ++ rest) = Some (String.length tok').
Proof.
  intros Hin E. unfold boilerplate in Hin. cbn [In] in Hin.
  repeat (destruct Hin as [<- | Hin]); try contradiction;
    match type of E with _ = ?r =>
      let v := eval vm_compute in r in change r with v in E end;
    split_token;
    unfold boilerplate;
    cbn [Re.alternation Re.starts_with append String.length];
    repeat match goal with H : lower_char _ = _ |- _ => rewrite H; clear H end;
    cbn; reflexivity.
Qed.

(** A boilerplate token at the scan position is deleted in whatever
    case it is written. *)
Lemma remove_boilerplate_head (tok tok' rest : string) :
  In tok boilerplate -> lower tok' = lower tok ->
  remove_boilerplate (tok' ++ rest) = remove_boilerplate rest.
Proof.
  intros Hin E. pose proof (alternation_head tok tok' rest Hin E) as Hm.
  destruct tok' as [|c t].
  - reflexivity.
  - unfold remove_boilerplate, Re.sub. now rewrite sub_from_match.
Qed.

(** The alternatives are deleted wherever they occur, inside a word as
    well. *)
Lemma boilerplate_inside_a_word :
  clean_club_name "Manchester_United" = "Manchter United".
Proof. reflexivity. Qed.

Lemma clean_club_name_no_separator s :
  all_chars (fun c => negb (is_separator c)) (clean_club_name s) = true.
Proof.
  unfold clean_club_name, title.
  rewrite StringFacts.all_chars_title_from.
  - apply StringFacts.all_chars_strip.
    apply StringFacts.all_chars_sub_delete.
    apply StringFacts.replace_separators_none.
  - intros c. now rewrite StringFacts.separator_upper_char.
  - intros c. now rewrite StringFacts.separator_lower_char.
Qed.

Lemma clean_club_name_trimmed s : strip (clean_club_name s) = clean_club_name s.
Proof.
  unfold clean_club_name.
  now rewrite StringFacts.strip_title, StringFacts.strip_idem.
Qed.

Lemma clean_club_name_titled s : title (clean_club_name s) = clean_club_name s.
Proof. unfold clean_club_name, title. apply StringFacts.title_from_idem. Qed.

(** C4: a cleaned club name holds no underscore or hyphen, is trimmed
    and is in title case; a boilerplate token met by the scan is deleted
    whatever its case; and the two example rows load as "Barca" and
    "Real Madrid" with sentiments "Positive" and "Negative", of which
    the year 2023 selects the first. *)
Theorem club_name_normalisation
  (to_datetime : string -> option timestamp) (d1 d2 : timestamp) :
  to_datetime "2023-05-01" = Some d1 -> ts_year d1 = 2023%Z ->
  to_datetime "2022-01-10" = Some d2 -> ts_year d2 = 2022%Z ->
  (forall s,
      clean_club_name s
      = title (strip (remove_boilerplate (replace_separators s))) /\
      all_chars (fun c => negb (is_separator c)) (clean_club_name s) = true /\
      strip (clean_club_name s) = clean_club_name s /\
      title (clean_club_name s) = clean_club_name s) /\
  (forall tok tok' rest,
      In tok boilerplate -> lower tok' = lower tok ->
      remove_boilerplate (tok' ++ rest) = remove_boilerplate rest) /\
  map club_name (load_data to_datetime Examples.labeled)
  = [Some "Barca"; Some "Real Madrid"] /\
  map sentiment (load_data to_datetime Examples.labeled)
  = [Some "Positive"; Some "Negative"] /\
  map year (load_data to_datetime Examples.labeled)
  = [Some 2023%Z; Some 2022%Z] /\
  filtered_df (load_data to_datetime Examples.labeled) (Year 2023) "All"
  = firstn 1 (load_data to_datetime Examples.labeled).
Proof.
  intros H1 Hy1 H2 Hy2. split; [|split].
  - intros s. split; [reflexivity|]. split; [|split].
    + apply clean_club_name_no_separator.
    + apply clean_club_name_trimmed.
    + apply clean_club_name_titled.
  - apply remove_boilerplate_head.
  - unfold load_data, Examples.labeled. cbn [map]. unfold load_row.
    cbn [csv_date csv_text csv_club_name csv_sentiment coerce_datetime].
    rewrite H1, H2. cbn [option_map]. rewrite Hy1, Hy2.
    repeat split.
Qed.

Lemma club_name_normalisation_witness :
  map club_name Examples.loaded = [Some "Barca"; Some "Real Madrid"] /\
  filtered_df Examples.loaded (Year 2023) "All" = firstn 1 Examples.loaded.
Proof.
  destruct (club_name_normalisation Examples.iso_date
              (mk_timestamp 2023 5 1) (mk_timestamp 2022 1 10)
              eq_refl eq_refl eq_refl eq_refl)
    as (_ & _ & Hclub & _ & _ & Hfilter).
  split; [exact Hclub | exact Hfilter].
Defined.

Section WordCloud.

Variable english_stopwords : list string.

(** Without rows the tab shows the notice. *)
Lemma tab4_no_rows : tab4 english_stopwords [] = NoTextWarning.
Proof. reflexivity. Qed.

(** The notice is shown exactly when the joined text is blank before it
    is cleaned. *)
Lemma tab4_warning_iff (filtered : list row) :
  tab4 english_stopwords filtered = NoTextWarning
  <-> strip (text_data filtered) = "".
Proof.
  unfold tab4. destruct (strip (text_data filtered)) as [|c s]; simpl.
  - split; reflexivity.
  - split; discriminate.
Qed.

(** C5, on a table whose only tweet is a score, a mention and a link:
    the text is not blank, cleaning leaves nothing of it, and the tab
    calls the word-cloud generator on the empty string instead of
    showing the notice; a generator that raises on a text without words
    makes the tab fail. *)
Theorem word_cloud_of_wordless_text (image : Type)
  (generate : string -> outcome image) :
  generate "" = Raises ->
  let filtered :=
    filtered_df (load_data Examples.iso_date Examples.wordless)
                AllYears "All" in
  text_data filtered = "!!! 2-0 @fcb https://t.co/x1" /\
  clean_text_data english_stopwords (text_data filtered) = "" /\
  tab4 english_stopwords filtered = Generate "" /\
  show_tab4 english_stopwords generate filtered = Error image.
Proof.
  intros Hraise filtered.
  assert (Htext : text_data filtered = "!!! 2-0 @fcb https://t.co/x1")
    by reflexivity.
  assert (Hclean : clean_text_data english_stopwords (text_data filtered) = "")
    by (rewrite Htext; reflexivity).
  assert (Htab : tab4 english_stopwords filtered = Generate "").
  { unfold tab4. rewrite Hclean, Htext. reflexivity. }
  repeat split; try assumption.
  unfold show_tab4. now rewrite Htab, Hraise.
Qed.

End WordCloud.

Lemma word_cloud_of_wordless_text_witness :
  show_tab4 [] Examples.needs_a_word
    (filtered_df (load_data Examples.iso_date Examples.wordless)
                 AllYears "All")
  = Error string.
Proof.
  destruct (word_cloud_of_wordless_text [] string Examples.needs_a_word
              eq_refl) as (_ & _ & _ & H).
  exact H.
Defined.

End LoadFacts.

(* ------------------------------------------------------------------ *)
(** ** Blank text *)

Module BlankFacts.

Import PyStr TextCleaning TextCleaningFacts.

Lemma lstrip_all_space s :
  all_chars isspace (lstrip s) = all_chars isspace s.
Proof.
  induction s as [|c s IH]; [reflexivity|]. cbn [lstrip].
  destruct (isspace c) eqn:E; [|reflexivity].
  rewrite IH. simpl. now rewrite E.
Qed.

Lemma rstrip_empty_iff s : rstrip s = "" <-> all_chars isspace s = true.
Proof.
  induction s as [|c s IH]; [split; reflexivity|]. cbn [rstrip all_chars].
  rewrite andb_true_iff, <- IH.
  destruct (rstrip s) as [|d r]; destruct (isspace c); split;
    try discriminate; try reflexivity; try (intros [? ?]; discriminate);
    intros; split; reflexivity.
Qed.

(** A text is empty once trimmed exactly when it is made of white
    space only. *)
Lemma strip_empty_iff s : strip s = "" <-> all_chars isspace s = true.
Proof. unfold strip. now rewrite rstrip_empty_iff, lstrip_all_space. Qed.

(** X1: the cleaning of the text column keeps exactly the rows whose
    text is present and has a character that is not white space. *)
Theorem cleaning_keeps_exactly_nonblank_text {R : Type}
  (text : R -> option string) (df : list R) (r : R) :
  In r (clean_text text df) <->
  In r df /\ exists s, text r = Some s /\ all_chars isspace s = false.
Proof.
  rewrite clean_text_filter, filter_In, good_textb_spec.
  apply and_iff_compat_l. unfold good_text. split.
  - intros (s & Hs & Hne). exists s. split; [exact Hs|].
    destruct (all_chars isspace s) eqn:E; [|reflexivity].
    apply strip_empty_iff in E. contradiction.
  - intros (s & Hs & Hne). exists s. split; [exact Hs|].
    intros E. apply strip_empty_iff in E. congruence.
Qed.

End BlankFacts.

(* ------------------------------------------------------------------ *)
(** ** The Sampler, row by row *)

Module SamplerRows.

Import PrepareData TextCleaning TextCleaningFacts.

Lemma filter_map_commute {A B : Type} (f : A -> B) (p : B -> bool)
  (l : list A) :
  filter p (map f l) = map f (filter (fun a => p (f a)) l).
Proof.
  induction l as [|a l IH]; simpl; [reflexivity|].
  destruct (p (f a)); simpl; now rewrite IH.
Qed.

Section Props.

Variable to_datetime : string -> option timestamp.
Variable sample : list row -> nat -> Z -> list row.

Lemma df_clean_rows (df : list raw_row) :
  df_clean to_datetime df
  = map (select_rename to_datetime)
        (filter (fun r => notna (tweet_full_text r)
                          && strip_ne_empty (tweet_full_text r)) df).
Proof.
  unfold df_clean. rewrite clean_text_filter.
  apply filter_map_commute.
Qed.

(** X3: a table with at most 1500 usable tweets is written out whole
    and in order: one row for each raw row with a usable text, with the
    text and the screen name untouched, whether its date parses or not. *)
Theorem sampler_small_table (df : list raw_row) :
  List.length
    (filter (fun r => notna (tweet_full_text r)
                      && strip_ne_empty (tweet_full_text r)) df) <= 1500 ->
  prepare_data to_datetime sample df
  = map (select_rename to_datetime)
        (filter (fun r => notna (tweet_full_text r)
                          && strip_ne_empty (tweet_full_text r)) df) /\
  map text (prepare_data to_datetime sample df)
  = map tweet_full_text
        (filter (fun r => notna (tweet_full_text r)
                          && strip_ne_empty (tweet_full_text r)) df) /\
  map club_name (prepare_data to_datetime sample df)
  = map user_screen_name
        (filter (fun r => notna (tweet_full_text r)
                          && strip_ne_empty (tweet_full_text r)) df).
Proof.
  intros Hle.
  assert (E : prepare_data to_datetime sample df
              = map (select_rename to_datetime)
                  (filter (fun r => notna (tweet_full_text r)
                                    && strip_ne_empty (tweet_full_text r))
                          df)).
  { unfold prepare_data. rewrite df_clean_rows, length_map.
    assert (Hb : Nat.ltb 1500
                   (List.length
                      (filter (fun r => notna (tweet_full_text r)
                                 && strip_ne_empty (tweet_full_text r)) df))
                 = false) by (apply Nat.ltb_ge; exact Hle).
    now rewrite Hb. }
  rewrite E, !map_map. repeat split.
Qed.

(** [DataFrame.sample] without replacement: [n] of the rows, each taken
    at most as often as it occurs. *)
Hypothesis sample_contract :
  forall (l : list row) (n : nat) (seed : Z),
    n <= List.length l ->
    List.length (sample l n seed) = n /\
    exists rest, Permutation l (sample l n seed ++ rest).

(** X2: the Sampler never writes more than 1500 rows, nor more rows
    than it read. *)
Theorem sampler_at_most_1500 (df : list raw_row) :
  List.length (prepare_data to_datetime sample df) <= 1500 /\
  List.length (prepare_data to_datetime sample df) <= List.length df.
Proof.
  assert (Hc : List.length (df_clean to_datetime df) <= List.length df).
  { rewrite df_clean_rows, length_map. apply filter_length_le. }
  unfold prepare_data.
  destruct (Nat.ltb 1500 (List.length (df_clean to_datetime df))) eqn:E.
  - apply Nat.ltb_lt in E.
    destruct (sample_contract (df_clean to_datetime df) 1500 42%Z) as [-> _];
      lia.
  - apply Nat.ltb_ge in E. lia.
Qed.

(** X4: every row the Sampler writes is the renamed copy of a raw row
    whose text is usable; nothing else is ever written. *)
Theorem sampler_rows_come_from_input (df : list raw_row) (r : row) :
  In r (prepare_data to_datetime sample df) ->
  exists raw,
    In raw df /\ r = select_rename to_datetime raw /\
    text r = tweet_full_text raw /\ club_name r = user_screen_name raw /\
    good_text text r.
Proof.
  intros Hr.
  apply (SamplerFacts.prepare_data_incl to_datetime sample sample_contract)
    in Hr.
  pose proof Hr as Hr'. rewrite df_clean_rows in Hr'.
  apply in_map_iff in Hr'. destruct Hr' as (raw & <- & Hraw).
  apply filter_In in Hraw. destruct Hraw as [Hin _].
  exists raw. repeat split; try assumption.
  unfold df_clean in Hr.
  pose proof (clean_text_good text (map (select_rename to_datetime) df)) as H.
  rewrite Forall_forall in H. now apply H.
Qed.

End Props.

Lemma sampler_small_table_witness :
  map club_name
      (prepare_data Examples.iso_date Examples.first_rows
                    (Examples.raw_tweets 2))
  = [Some "fc_barca"; Some "fc_barca"].
Proof.
  destruct (sampler_small_table Examples.iso_date Examples.first_rows
              (Examples.raw_tweets 2)) as (_ & _ & H).
  - apply Nat.leb_le. reflexivity.
  - exact H.
Defined.

Lemma sampler_at_most_1500_witness :
  List.length (prepare_data Examples.iso_date Examples.first_rows
                            (Examples.raw_tweets 1501)) <= 1500.
Proof.
  destruct (sampler_at_most_1500 Examples.iso_date Examples.first_rows
              SamplerFacts.first_rows_contract (Examples.raw_tweets 1501))
    as [H _].
  exact H.
Defined.

Lemma sampler_rows_come_from_input_witness :
  exists raw,
    In raw (Examples.raw_tweets 1) /\
    mk_row (Some (mk_timestamp 2023 5 1)) (Some "What a goal!")
           (Some "fc_barca")
    = select_rename Examples.iso_date raw.
Proof.
  destruct (sampler_rows_come_from_input Examples.iso_date
              Examples.first_rows SamplerFacts.first_rows_contract
              (Examples.raw_tweets 1)
              (mk_row (Some (mk_timestamp 2023 5 1)) (Some "What a goal!")
                      (Some "fc_barca")))
    as (raw & Hin & E & _).
  - left. reflexivity.
  - exists raw. split; assumption.
Defined.

End SamplerRows.

(* ------------------------------------------------------------------ *)
(** ** The Classifier, row by row *)

Module ClassifierRows.

Import AnalyzeSentiment TextCleaning TextCleaningFacts.

(** X5: the Classifier works row by row: labeling two tables one after
    the other gives the labeled rows of the first followed by those of
    the second, so the label of a row does not depend on the other
    rows. *)
Theorem classifier_rowwise
  (sentiment_analyzer : string -> outcome (list prediction))
  (df1 df2 : list row) :
  analyze_sentiment sentiment_analyzer (df1 ++ df2)
  = (analyze_sentiment sentiment_analyzer df1
     ++ analyze_sentiment sentiment_analyzer df2)%list.
Proof.
  unfold analyze_sentiment, clean. rewrite !clean_text_filter.
  now rewrite filter_app, map_app.
Qed.

End ClassifierRows.

(* ------------------------------------------------------------------ *)
(** ** The Dashboard: how selections compose *)

Module FilterFacts.

Import App DashboardFacts.

Lemma filter_idem {A : Type} (p : A -> bool) (l : list A) :
  filter p (filter p l) = filter p l.
Proof.
  rewrite filter_filter. apply filter_ext. intros a. now destruct (p a).
Qed.

(** X6: selecting twice is selecting once, and the year and the club
    may be selected one after the other in either order. *)
Theorem dashboard_filter_composes (df : list row)
  (selected_year : year_selection) (selected_club : string) :
  filtered_df (filtered_df df selected_year selected_club)
              selected_year selected_club
  = filtered_df df selected_year selected_club /\
  filtered_df (filtered_df df selected_year "All") AllYears selected_club
  = filtered_df df selected_year selected_club /\
  filtered_df (filtered_df df AllYears selected_club) selected_year "All"
  = filtered_df df selected_year selected_club.
Proof.
  rewrite !filtered_df_matches. split; [apply filter_idem|].
  rewrite !filter_filter. split; apply filter_ext; intros r;
    unfold matches_selection; cbn [year_constraint club_constraint String.eqb];
    cbn; rewrite ?andb_true_r; [reflexivity | apply andb_comm].
Qed.

(** X7: a selection only ever removes rows: the filtered view is made
    of rows of the loaded table, holds no more rows than the table, and
    is contained in the view of a wider selection. *)
Theorem dashboard_filter_narrows (df : list row)
  (selected_year : year_selection) (selected_club : string) :
  incl (filtered_df df selected_year selected_club) df /\
  List.length (filtered_df df selected_year selected_club) <= List.length df /\
  incl (filtered_df df selected_year selected_club)
       (filtered_df df AllYears selected_club) /\
  incl (filtered_df df selected_year selected_club)
       (filtered_df df selected_year "All").
Proof.
  rewrite !filtered_df_matches. split; [apply incl_filter|].
  split; [apply filter_length_le|].
  split; intros r Hr; apply filter_In in Hr; destruct Hr as [Hin Hm];
    apply filter_In; (split; [exact Hin|]);
    unfold matches_selection in *; apply andb_true_iff in Hm;
    destruct Hm as [Hy Hc].
  - now rewrite Hc.
  - now rewrite Hy.
Qed.

(** Rows with one of two different sentiments. *)
Lemma count_two_sentiments (s1 s2 : string) (df : list row) :
  s1 <> s2 ->
  count_sentiment s1 df + count_sentiment s2 df
  = List.length
      (filter (fun r => match sentiment r with
                        | Some s => String.eqb s s1 || String.eqb s s2
                        | None => false
                        end) df).
Proof.
  intros Hne. unfold count_sentiment.
  induction df as [|r df IH]; [reflexivity|]. cbn [filter].
  destruct (sentiment r) as [s|]; [|exact IH].
  destruct (String.eqb s s1) eqn:E1; destruct (String.eqb s s2) eqn:E2;
    cbn [orb List.length]; try lia.
  apply String.eqb_eq in E1, E2. congruence.
Qed.

Lemma filter_length_all {A : Type} (p : A -> bool) (l : list A) :
  List.length (filter p l) = List.length l <-> Forall (fun a => p a = true) l.
Proof.
  induction l as [|a l IH]; simpl.
  - split; [constructor | reflexivity].
  - pose proof (filter_length_le p l) as Hle.
    destruct (p a) eqn:E; simpl; split.
    + intros H. constructor; [exact E|]. apply IH. lia.
    + intros H. inversion H; subst. f_equal. now apply IH.
    + intros H. lia.
    + intros H. inversion H; subst. congruence.
Qed.

(** X9: the Positive and Negative metrics never add up to more than
    Total Tweets, and they add up to it exactly when every filtered row
    is labeled Positive or Negative; a row with another label, such as
    the Classifier's fallback, is counted in the total alone. *)
Theorem metrics_account_for_rows (english_stopwords : list string)
  (df : list row) (selected_year : year_selection) (selected_club : string) :
  let v := render english_stopwords df selected_year selected_club in
  positive v + negative v <= total_tweets v /\
  (positive v + negative v = total_tweets v <->
   Forall (fun r => sentiment r = Some "Positive" \/
                    sentiment r = Some "Negative")
          (filtered_df df selected_year selected_club)).
Proof.
  unfold render. cbn.
  set (f := filtered_df df selected_year selected_club).
  rewrite count_two_sentiments by discriminate. split.
  - apply filter_length_le.
  - rewrite filter_length_all, !Forall_forall.
    assert (H : forall r,
               match sentiment r with
               | Some s => String.eqb s "Positive" || String.eqb s "Negative"
               | None => false
               end = true <->
               (sentiment r = Some "Positive" \/
                sentiment r = Some "Negative")).
    { intros r. destruct (sentiment r) as [s|].
      - rewrite orb_true_iff, !String.eqb_eq. split.
        + intros [->| ->]; auto.
        + intros [[= ->]|[= ->]]; auto.
      - split; [discriminate | intros [H|H]; discriminate]. }
    split; intros Hall r Hr; apply H; now apply Hall.
Qed.

End FilterFacts.

(* ------------------------------------------------------------------ *)
(** ** Grouped counts are exact *)

Module GroupOrderFacts.

Import GroupBy.

Section Order.

Context {K : Type} (cmp : K -> K -> comparison) `{KeyOrder K cmp}.

Lemma cmp_refl (a : K) : cmp a a = Eq.
Proof.
  pose proof (cmp_antisym a a) as E. destruct (cmp a a); simpl in E;
    congruence.
Qed.

Lemma same_key_iff (a b : K) : same_key cmp a b = true <-> a = b.
Proof.
  unfold same_key. split.
  - destruct (cmp a b) eqn:E; try discriminate. intros _. now apply cmp_eq.
  - intros ->. now rewrite cmp_refl.
Qed.

Lemma cmp_gt_lt (a b : K) : cmp a b = Gt -> cmp b a = Lt.
Proof.
  intros E. rewrite cmp_antisym in E. destruct (cmp b a); simpl in E;
    congruence.
Qed.

(** One more row under [k0] adds one to the count under [k0] and
    nothing to the others. *)
Lemma count_under_bump (k k0 : K) (g : list (K * nat)) :
  count_under cmp k (bump cmp k0 g)
  = count_under cmp k g + (if same_key cmp k k0 then 1 else 0).
Proof.
  induction g as [|[k' n] g IH]; cbn [bump count_under fold_right fst snd].
  - destruct (same_key cmp k k0); lia.
  - destruct (cmp k0 k') eqn:E; cbn [count_under fold_right fst snd].
    + apply cmp_eq in E. subst k'. destruct (same_key cmp k k0); lia.
    + destruct (same_key cmp k k0); destruct (same_key cmp k k'); lia.
    + fold (count_under cmp k (bump cmp k0 g)). rewrite IH.
      fold (count_under cmp k g).
      destruct (same_key cmp k k0); destruct (same_key cmp k k'); lia.
Qed.

Lemma count_under_fold (k : K) (keys : list K) (g : list (K * nat)) :
  count_under cmp k (fold_left (fun g k => bump cmp k g) keys g)
  = count_under cmp k g + List.length (filter (same_key cmp k) keys).
Proof.
  revert g. induction keys as [|k0 keys IH]; intros g; cbn [fold_left filter].
  - simpl. lia.
  - rewrite IH, count_under_bump.
    destruct (same_key cmp k k0); simpl; lia.
Qed.

Lemma bump_keys (k : K) (g : list (K * nat)) (P : K -> Prop) :
  P k -> Forall (fun x => P (fst x)) g ->
  Forall (fun x => P (fst x)) (bump cmp k g).
Proof.
  intros Hk. induction 1 as [|[k' n] g Hx Hg IH]; cbn [bump].
  - now constructor.
  - destruct (cmp k k'); repeat constructor; auto.
Qed.

Lemma bump_increasing (k : K) (g : list (K * nat)) :
  keys_increasing cmp g -> keys_increasing cmp (bump cmp k g).
Proof.
  unfold keys_increasing.
  induction 1 as [|[k' n] g Hg IH Hall]; cbn [bump].
  - repeat constructor.
  - destruct (cmp k k') eqn:E.
    + constructor; assumption.
    + constructor; [constructor; assumption|].
      constructor; [exact E|].
      eapply Forall_impl; [|exact Hall]. cbn [fst]. intros x Hx.
      now apply cmp_trans with k'.
    + constructor; [exact IH|].
      apply (bump_keys k g (fun y => cmp k' y = Lt)); [|exact Hall].
      now apply cmp_gt_lt.
Qed.

Lemma fold_increasing (keys : list K) (g : list (K * nat)) :
  keys_increasing cmp g ->
  keys_increasing cmp (fold_left (fun g k => bump cmp k g) keys g).
Proof.
  revert g. induction keys as [|k keys IH]; intros g Hg; [exact Hg|].
  apply IH. now apply bump_increasing.
Qed.

(** In a result with increasing keys the entry of a key holds all that
    is counted under it. *)
Lemma count_under_entry (k : K) (n : nat) (g : list (K * nat)) :
  keys_increasing cmp g -> In (k, n) g -> count_under cmp k g = n.
Proof.
  unfold keys_increasing.
  induction 1 as [|[k' n'] g Hg IH Hall]; [contradiction|].
  cbn [count_under fold_right fst snd]. fold (count_under cmp k g).
  intros [E|Hin].
  - injection E as -> ->. rewrite (proj2 (same_key_iff k k) eq_refl).
    assert (Hz : count_under cmp k g = 0).
    { clear IH Hg. induction Hall as [|[k2 n2] g Hlt _ IHg]; [reflexivity|].
      cbn [count_under fold_right fst snd] in *.
      unfold same_key at 1. rewrite Hlt. exact IHg. }
    lia.
  - rewrite Forall_forall in Hall. pose proof (Hall _ Hin) as Hlt.
    cbn [fst] in Hlt. unfold same_key at 1.
    rewrite (cmp_antisym k k'), Hlt. cbn [CompOpp]. now apply IH.
Qed.

Lemma bump_positive (k : K) (g : list (K * nat)) :
  Forall (fun x => 0 < snd x) g -> Forall (fun x => 0 < snd x) (bump cmp k g).
Proof.
  induction 1 as [|[k' n] g Hx Hg IH]; cbn [bump].
  - repeat constructor.
  - destruct (cmp k k'); repeat constructor; auto;
      try (cbn [snd] in *; lia).
Qed.

Lemma fold_positive (keys : list K) (g : list (K * nat)) :
  Forall (fun x => 0 < snd x) g ->
  Forall (fun x => 0 < snd x) (fold_left (fun g k => bump cmp k g) keys g).
Proof.
  revert g. induction keys as [|k keys IH]; intros g Hg; [exact Hg|].
  apply IH. now apply bump_positive.
Qed.

Lemma keyed_rows_length {R : Type} (key : R -> option K) (df : list R)
  (k : K) :
  List.length
    (filter (same_key cmp k)
       (flat_map (fun r => match key r with Some k => [k] | None => [] end)
                 df))
  = List.length (rows_with_key cmp key k df).
Proof.
  unfold rows_with_key. induction df as [|r df IH]; [reflexivity|].
  cbn [flat_map filter]. destruct (key r) as [k'|]; cbn [app].
  - cbn [filter]. destruct (same_key cmp k k'); cbn [List.length];
      now rewrite IH.
  - exact IH.
Qed.

(** [groupby(...).size()] is exact: the groups come out with
    strictly increasing keys, hence one group for a key; the count of a
    group is the number of rows with that key and is not zero; and
    every row with a complete key has its group. *)
Theorem groupby_size_exact {R : Type} (key : R -> option K) (df : list R) :
  keys_increasing cmp (size cmp key df) /\
  (forall k n, In (k, n) (size cmp key df) ->
               n = List.length (rows_with_key cmp key k df) /\ 0 < n) /\
  (forall r k, In r df -> key r = Some k ->
               In (k, List.length (rows_with_key cmp key k df))
                  (size cmp key df)).
Proof.
  assert (Hinc : keys_increasing cmp (size cmp key df)).
  { unfold size, size_of_keys. apply fold_increasing. constructor. }
  assert (Hcount : forall k n, In (k, n) (size cmp key df) ->
                               n = List.length (rows_with_key cmp key k df)).
  { intros k n Hin. rewrite <- (count_under_entry k n _ Hinc Hin).
    unfold size, size_of_keys. rewrite count_under_fold. cbn.
    apply keyed_rows_length. }
  split; [exact Hinc|]. split.
  - intros k n Hin. split; [now apply Hcount|].
    assert (Hpos : Forall (fun x => 0 < snd x) (size cmp key df)).
    { unfold size, size_of_keys. apply fold_positive. constructor. }
    rewrite Forall_forall in Hpos. exact (Hpos _ Hin).
  - intros r k Hr Hk.
    destruct (GroupByFacts.size_counts cmp cmp_eq key df r k Hr Hk)
      as [n Hn].
    now rewrite <- (Hcount _ _ Hn).
Qed.

End Order.

End GroupOrderFacts.

(* ------------------------------------------------------------------ *)
(** ** The orders of the keys *)

Module KeyOrders.

Import GroupBy.

Lemma ascii_compare_refl (a : ascii) : Ascii.compare a a = Eq.
Proof. unfold Ascii.compare. apply N.compare_refl. Qed.

Lemma ascii_compare_trans (a b c : ascii) :
  Ascii.compare a b = Lt -> Ascii.compare b c = Lt -> Ascii.compare a c = Lt.
Proof.
  unfold Ascii.compare. rewrite !N.compare_lt_iff. apply N.lt_trans.
Qed.

Lemma string_compare_trans (s1 s2 s3 : string) :
  String.compare s1 s2 = Lt -> String.compare s2 s3 = Lt ->
  String.compare s1 s3 = Lt.
Proof.
  revert s2 s3. induction s1 as [|c1 s1 IH]; intros [|c2 s2] [|c3 s3];
    cbn [String.compare]; try discriminate; try reflexivity.
  destruct (Ascii.compare c1 c2) eqn:E12; try discriminate;
    destruct (Ascii.compare c2 c3) eqn:E23; try discriminate; intros H1 H2.
  - apply Ascii.compare_eq_iff in E12, E23. subst.
    rewrite ascii_compare_refl. now apply IH with s2.
  - apply Ascii.compare_eq_iff in E12. subst. now rewrite E23.
  - apply Ascii.compare_eq_iff in E23. subst. now rewrite E12.
  - now rewrite (ascii_compare_trans _ _ _ E12 E23).
Qed.

#[export] Instance string_order : KeyOrder String.compare.
Proof.
  split.
  - apply String.compare_eq_iff.
  - apply String.compare_antisym.
  - apply string_compare_trans.
Qed.

#[export] Instance Z_order : KeyOrder Z.compare.
Proof.
  split.
  - apply Z.compare_eq.
  - intros a b. apply Z.compare_antisym.
  - intros a b c. rewrite !Z.compare_lt_iff. apply Z.lt_trans.
Qed.

#[export] Instance pair_order {A B : Type} (ca : A -> A -> comparison)
  (cb : B -> B -> comparison) :
  KeyOrder ca -> KeyOrder cb -> KeyOrder (cmp_pair ca cb).
Proof.
  intros HA HB. split.
  - apply GroupByFacts.cmp_pair_eq; apply cmp_eq.
  - intros [a b] [a' b']. unfold cmp_pair. cbn [fst snd].
    rewrite (cmp_antisym a a'). destruct (ca a' a); cbn [CompOpp];
      try reflexivity. apply cmp_antisym.
  - intros [a b] [a' b'] [a2 b2]. unfold cmp_pair. cbn [fst snd].
    destruct (ca a a') eqn:E1; try discriminate;
      destruct (ca a' a2) eqn:E2; try discriminate; intros H1 H2.
    + apply cmp_eq in E1, E2. subst.
      rewrite (GroupOrderFacts.cmp_refl ca). now apply cmp_trans with b'.
    + apply cmp_eq in E1. subst. now rewrite E2.
    + apply cmp_eq in E2. subst. now rewrite E1.
    + now rewrite (cmp_trans _ _ _ E1 E2).
Qed.

End KeyOrders.

(* ------------------------------------------------------------------ *)
(** ** The grouped views of the Dashboard *)

Module GroupedViews.

Import App GroupBy KeyOrders.

Lemma bool_eq_iff (a b : bool) : (a = true <-> b = true) -> a = b.
Proof. destruct a, b; intros [H1 H2]; auto; symmetry; auto. Qed.

(** The rows under a two-column key are those that agree with it in
    both columns. *)
Lemma rows_with_key2 {A B : Type} (ca : A -> A -> comparison)
  (cb : B -> B -> comparison) `{KeyOrder A ca} `{KeyOrder B cb}
  (fa : row -> option A) (fb : row -> option B)
  (pa : A -> row -> bool) (pb : B -> row -> bool) :
  (forall a r, pa a r = true <-> fa r = Some a) ->
  (forall b r, pb b r = true <-> fb r = Some b) ->
  forall a b df,
    rows_with_key (cmp_pair ca cb) (fun r => key2 (fa r) (fb r)) (a, b) df
    = filter (fun r => pa a r && pb b r) df.
Proof.
  intros Ha Hb a b df. unfold rows_with_key. apply filter_ext. intros r.
  apply bool_eq_iff. rewrite andb_true_iff, Ha, Hb. unfold key2.
  destruct (fa r) as [a'|]; [destruct (fb r) as [b'|]|].
  - rewrite (GroupOrderFacts.same_key_iff (cmp_pair ca cb)). split.
    + intros [= -> ->]. auto.
    + intros [[= ->] [= ->]]. reflexivity.
  - split; [discriminate | intros [_ E]; discriminate].
  - split; [discriminate | intros [E _]; discriminate].
Qed.

Lemma month_is_iff m r : month_is m r = true <-> Some (month_str (date r)) = Some m.
Proof.
  unfold month_is. rewrite String.eqb_eq. split; [now intros -> | now intros [= ->]].
Qed.

Lemma sentiment_is_iff s r : sentiment_is s r = true <-> sentiment r = Some s.
Proof.
  unfold sentiment_is. destruct (sentiment r) as [s'|].
  - rewrite String.eqb_eq. split; [now intros -> | now intros [= ->]].
  - split; discriminate.
Qed.

Lemma club_is_iff c r : club_is c r = true <-> club_name r = Some c.
Proof.
  unfold club_is. destruct (club_name r) as [c'|].
  - rewrite String.eqb_eq. split; [now intros -> | now intros [= ->]].
  - split; discriminate.
Qed.

Lemma year_is_iff y r : year_is y r = true <-> year r = Some y.
Proof.
  unfold year_is. destruct (year r) as [y'|].
  - rewrite Z.eqb_eq. split; [now intros -> | now intros [= ->]].
  - split; discriminate.
Qed.

(** X10: the grouped counts the charts are drawn from are exact.  In
    the monthly trend, the club comparison and the yearly trend the
    groups come out with strictly increasing keys, so each key has one
    group; the count of a group is the number of rows of the grouped
    table that agree with its key in both columns, and is never zero. *)
Theorem dashboard_groups_exact (df : list row) :
  (keys_increasing (cmp_pair String.compare String.compare)
                   (monthly_trend df) /\
   forall m s n, In ((m, s), n) (monthly_trend df) ->
     0 < n /\
     n = List.length (filter (fun r => month_is m r && sentiment_is s r) df))
  /\
  (keys_increasing (cmp_pair String.compare String.compare)
                   (club_counts df) /\
   forall c s n, In ((c, s), n) (club_counts df) ->
     0 < n /\
     n = List.length (filter (fun r => club_is c r && sentiment_is s r) df))
  /\
  (keys_increasing (cmp_pair Z.compare String.compare) (yearly_trend df) /\
   forall y s n, In ((y, s), n) (yearly_trend df) ->
     0 < n /\
     n = List.length (filter (fun r => year_is y r && sentiment_is s r) df)).
Proof.
  split; [|split].
  - destruct (GroupOrderFacts.groupby_size_exact
                (cmp_pair String.compare String.compare)
                (fun r => key2 (Some (month_str (date r))) (sentiment r)) df)
      as (Hinc & Hcount & _).
    split; [exact Hinc|]. intros m s n Hin.
    destruct (Hcount _ _ Hin) as [Hn Hpos]. split; [exact Hpos|].
    rewrite Hn.
    now rewrite (rows_with_key2 String.compare String.compare
                   (fun r => Some (month_str (date r))) sentiment
                   month_is sentiment_is month_is_iff sentiment_is_iff).
  - destruct (GroupOrderFacts.groupby_size_exact
                (cmp_pair String.compare String.compare)
                (fun r => key2 (club_name r) (sentiment r)) df)
      as (Hinc & Hcount & _).
    split; [exact Hinc|]. intros c s n Hin.
    destruct (Hcount _ _ Hin) as [Hn Hpos]. split; [exact Hpos|].
    rewrite Hn.
    now rewrite (rows_with_key2 String.compare String.compare
                   club_name sentiment
                   club_is sentiment_is club_is_iff sentiment_is_iff).
  - destruct (GroupOrderFacts.groupby_size_exact
                (cmp_pair Z.compare String.compare)
                (fun r => key2 (year r) (sentiment r)) df)
      as (Hinc & Hcount & _).
    split; [exact Hinc|]. intros y s n Hin.
    destruct (Hcount _ _ Hin) as [Hn Hpos]. split; [exact Hpos|].
    rewrite Hn.
    now rewrite (rows_with_key2 Z.compare String.compare
                   year sentiment
                   year_is sentiment_is year_is_iff sentiment_is_iff).
Qed.

Lemma dashboard_groups_exact_witness :
  1 = List.length
        (filter (fun r => club_is "Barca" r && sentiment_is "Positive" r)
                Examples.loaded).
Proof.
  destruct (dashboard_groups_exact Examples.loaded) as (_ & (_ & H) & _).
  apply (H "Barca" "Positive" 1). left. reflexivity.
Defined.

End GroupedViews.

(* ------------------------------------------------------------------ *)
(** ** The keys of the monthly trend *)

Module MonthKeys.

Import App.

Open Scope Z_scope.

Lemma digit_mod (a b : Z) : digit a = digit b -> a mod 10 = b mod 10.
Proof.
  unfold digit. intros E. apply (f_equal nat_of_ascii) in E.
  pose proof (Z.mod_pos_bound a 10 eq_refl) as Ha.
  pose proof (Z.mod_pos_bound b 10 eq_refl) as Hb.
  rewrite !nat_ascii_embedding in E by lia. lia.
Qed.

Lemma two_digits_inj (a b : Z) :
  0 <= a < 100 -> 0 <= b < 100 -> two_digits a = two_digits b -> a = b.
Proof.
  intros Ha Hb E. unfold two_digits in E. injection E as E1 E0.
  apply digit_mod in E1, E0.
  Z.div_mod_to_equations. lia.
Qed.

Lemma four_digits_inj (a b : Z) :
  0 <= a < 10000 -> 0 <= b < 10000 -> four_digits a = four_digits b -> a = b.
Proof.
  intros Ha Hb E. unfold four_digits, two_digits in E.
  injection E as E3 E2 E1 E0.
  apply digit_mod in E3, E2, E1, E0.
  Z.div_mod_to_equations. lia.
Qed.

(** X11: the key of the monthly trend tells months apart.  For dates
    with a four-digit year, the keys of two dated rows are equal exactly
    when the rows share the year and the month, the key has seven
    characters, and it is never the key "NaT" of the undated rows. *)
Theorem month_key_faithful (t t' : timestamp) :
  0 <= ts_year t < 10000 -> 0 <= ts_year t' < 10000 ->
  1 <= ts_month t <= 12 -> 1 <= ts_month t' <= 12 ->
  String.length (month_str (Some t)) = 7%nat /\
  month_str (Some t) <> month_str None /\
  (month_str (Some t) = month_str (Some t') <->
   ts_year t = ts_year t' /\ ts_month t = ts_month t').
Proof.
  intros Hy Hy' Hm Hm'. split; [reflexivity|]. split; [discriminate|]. split.
  - unfold month_str.
    change (four_digits (ts_year t) ++ "-" ++ two_digits (ts_month t))%string
      with (String (digit (ts_year t / 1000))
              (String (digit (ts_year t / 100))
                 (String (digit (ts_year t / 10))
                    (String (digit (ts_year t))
                       (String "-" (two_digits (ts_month t))))))).
    change (four_digits (ts_year t') ++ "-" ++ two_digits (ts_month t'))%string
      with (String (digit (ts_year t' / 1000))
              (String (digit (ts_year t' / 100))
                 (String (digit (ts_year t' / 10))
                    (String (digit (ts_year t'))
                       (String "-" (two_digits (ts_month t'))))))).
    intros E. injection E as E3 E2 E1 E0 Em1 Em0. split.
    + apply four_digits_inj; try assumption.
      unfold four_digits, two_digits. now rewrite E3, E2, E1, E0.
    + apply two_digits_inj; try lia.
      unfold two_digits. now rewrite Em1, Em0.
  - intros [Ey Em]. unfold month_str. now rewrite Ey, Em.
Qed.

Lemma month_key_faithful_witness :
  month_str (Some (mk_timestamp 2023 5 1))
  <> month_str (Some (mk_timestamp 2023 6 1)).
Proof.
  destruct (month_key_faithful (mk_timestamp 2023 5 1) (mk_timestamp 2023 6 1))
    as (_ & _ & H); cbn [ts_year ts_month]; try lia.
  intros E. apply H in E. destruct E as [_ E]. discriminate E.
Defined.

Close Scope Z_scope.

End MonthKeys.

(* ------------------------------------------------------------------ *)
(** ** The case of the sentiment labels *)

Module CaseFacts.

Import PyStr App.

Lemma upper_of_lower c : upper_char (lower_char c) = upper_char c.
Proof. StringFacts.by_cases_on c. Qed.

Lemma lower_of_upper c : lower_char (upper_char c) = lower_char c.
Proof. StringFacts.by_cases_on c. Qed.

Lemma lower_idem s : lower (lower s) = lower s.
Proof.
  induction s as [|c s IH]; [reflexivity|]. cbn [lower].
  now rewrite StringFacts.lower_char_idem, IH.
Qed.

Lemma capitalize_of_lower s t : lower s = lower t -> capitalize s = capitalize t.
Proof.
  destruct s as [|c s], t as [|d t]; cbn [lower capitalize];
    try discriminate; [reflexivity|].
  intros [= Ec Es]. rewrite Es. f_equal.
  now rewrite <- (upper_of_lower c), Ec, upper_of_lower.
Qed.

(** X12: the capitalisation of the sentiment at load does not depend on
    the case the label was written in, leaves a capitalised label as it
    is, and keeps the label up to case; so the labels POSITIVE, positive
    and Positive of a file are one and the same sentiment for the
    metrics and the charts. *)
Theorem sentiment_case_is_normalised
  (to_datetime : string -> option timestamp) :
  (forall s t, lower s = lower t -> capitalize s = capitalize t) /\
  (forall s, capitalize (capitalize s) = capitalize s) /\
  (forall s, lower (capitalize s) = lower s) /\
  (forall r r',
      option_map lower (csv_sentiment r) = option_map lower (csv_sentiment r')
      -> sentiment (load_row to_datetime r)
         = sentiment (load_row to_datetime r')) /\
  (forall r s, csv_sentiment r = Some s -> lower s = "positive" ->
               sentiment (load_row to_datetime r) = Some "Positive").
Proof.
  assert (Hl : forall s, lower (capitalize s) = lower s).
  { intros [|c s]; [reflexivity|]. cbn [capitalize lower].
    now rewrite lower_of_upper, lower_idem. }
  split; [exact capitalize_of_lower|]. split; [|split; [exact Hl|split]].
  - intros s. apply capitalize_of_lower. apply Hl.
  - intros r r' E. cbn [load_row sentiment].
    destruct (csv_sentiment r) as [s|], (csv_sentiment r') as [s'|];
      cbn [option_map] in *; try discriminate; [|reflexivity].
    injection E as E. f_equal. now apply capitalize_of_lower.
  - intros r s Hs E. cbn [load_row sentiment]. rewrite Hs. cbn [option_map].
    f_equal. now rewrite (capitalize_of_lower s "positive").
Qed.

Lemma sentiment_case_is_normalised_witness :
  sentiment (load_row Examples.iso_date
               (mk_csv_row None (Some "x") None (Some "PoSiTiVe")))
  = Some "Positive".
Proof.
  destruct (sentiment_case_is_normalised Examples.iso_date)
    as (_ & _ & _ & _ & H).
  apply (H _ "PoSiTiVe"); reflexivity.
Defined.

End CaseFacts.

(* ------------------------------------------------------------------ *)
(** ** The text handed to the word cloud *)

Module WordCloudFacts.

Import PyStr App.

Lemma isupper_lower_char c : isupper (lower_char c) = false.
Proof. StringFacts.by_cases_on c. Qed.

Lemma lowercase_letter c :
  negb (isupper c) && (isalpha c || isspace c) && negb (isspace c)
  = islower c.
Proof. StringFacts.by_cases_on c. Qed.

Lemma all_chars_ext (p q : ascii -> bool) (s : string) :
  (forall c, p c = q c) -> all_chars p s = all_chars q s.
Proof.
  intros E. induction s as [|c s IH]; [reflexivity|]. simpl.
  now rewrite E, IH.
Qed.

Lemma all_chars_app (p : ascii -> bool) (s t : string) :
  all_chars p (s ++ t) = all_chars p s && all_chars p t.
Proof.
  induction s as [|c s IH]; [reflexivity|]. simpl.
  now rewrite IH, andb_assoc.
Qed.

Lemma all_chars_lower (s : string) :
  all_chars (fun c => negb (isupper c)) (lower s) = true.
Proof.
  induction s as [|c s IH]; [reflexivity|]. simpl.
  now rewrite isupper_lower_char, IH.
Qed.

(** Behind the substitution of a blank for a class of characters the
    text holds blanks and characters outside the class. *)
Lemma all_chars_sub_class (cls p : ascii -> bool) (s : string) :
  p " "%char = true -> cls " "%char = false ->
  all_chars p s = true ->
  all_chars (fun c => p c && negb (cls c))
            (Re.sub (Re.char_class cls) " " s) = true.
Proof.
  intros Hp Hc. unfold Re.sub.
  induction s as [|c s IH]; [reflexivity|]. simpl. intros H.
  apply andb_true_iff in H. destruct H as [Hpc Hs].
  destruct (cls c) eqn:E; simpl.
  - rewrite Hp, Hc. simpl. now apply IH.
  - rewrite Hpc, E. simpl. now apply IH.
Qed.

Lemma all_chars_rev_string (p : ascii -> bool) (acc s : string) :
  all_chars p (rev_string acc s) = all_chars p s && all_chars p acc.
Proof.
  revert acc. induction s as [|c s IH]; intros acc; [reflexivity|].
  cbn [rev_string]. rewrite IH. simpl.
  destruct (p c), (all_chars p s), (all_chars p acc); reflexivity.
Qed.

(** The words of [split] are made of the characters of the text that
    are not white space, and none of them is empty. *)
Lemma split_from_words (p : ascii -> bool) (cur s : string) :
  all_chars (fun c => p c && negb (isspace c)) cur = true ->
  all_chars p s = true ->
  Forall (fun w => all_chars (fun c => p c && negb (isspace c)) w = true)
         (split_from cur s).
Proof.
  revert cur. induction s as [|c s IH]; intros cur Hcur Hs.
  - cbn [split_from]. destruct cur as [|d cur]; cbn [flush]; constructor;
      [|constructor].
    now rewrite all_chars_rev_string, Hcur.
  - simpl in Hs. apply andb_true_iff in Hs. destruct Hs as [Hc Hs].
    cbn [split_from]. destruct (isspace c) eqn:E.
    + apply Forall_app. split.
      * destruct cur as [|d cur]; cbn [flush]; constructor; [|constructor].
        now rewrite all_chars_rev_string, Hcur.
      * now apply IH.
    + apply IH; [|exact Hs]. simpl. now rewrite Hc, E, Hcur.
Qed.

Lemma all_chars_join (p : ascii -> bool) (sep : string) (ws : list string) :
  all_chars p sep = true ->
  all_chars p (join sep ws) = forallb (all_chars p) ws.
Proof.
  intros Hsep. induction ws as [|w ws IH]; [reflexivity|].
  destruct ws as [|w' ws].
  - simpl. now rewrite andb_true_r.
  - change (join sep (w :: w' :: ws)) with (w ++ sep ++ join sep (w' :: ws)).
    rewrite !all_chars_app, Hsep, IH. reflexivity.
Qed.

Section WordCloud.

Variable english_stopwords : list string.

Lemma cleaned_words_lowercase (s : string) :
  Forall (fun w => all_chars islower w = true)
         (cleaned_words english_stopwords s).
Proof.
  unfold cleaned_words.
  set (s1 := Re.sub _ "" (Re.sub _ "" (lower s))).
  assert (H1 : all_chars (fun c => negb (isupper c)) s1 = true).
  { subst s1. unfold Re.sub.
    do 2 apply StringFacts.all_chars_sub_delete. apply all_chars_lower. }
  pose proof (all_chars_sub_class
                (fun c => negb (isalpha c || isspace c))
                (fun c => negb (isupper c)) s1 eq_refl eq_refl H1) as H2.
  pose proof (split_from_words _ EmptyString _ eq_refl H2) as H3.
  fold (split (Re.sub (Re.char_class
                         (fun c => negb (isalpha c || isspace c))) " " s1))
    in H3.
  rewrite Forall_forall in H3 |- *. intros w Hw.
  apply filter_In in Hw. destruct Hw as [Hw _]. specialize (H3 w Hw).
  rewrite <- H3. apply all_chars_ext. intros c.
  rewrite negb_involutive. symmetry. apply lowercase_letter.
Qed.

(** X13: what the word-cloud tab hands to the generator is made of
    lower-case letters and single blanks only: it is the kept words
    joined by a blank, and each kept word is made of lower-case letters,
    has at least three of them, and is neither an English stop word nor
    one of the extra stop words. *)
Theorem word_cloud_text_is_clean (s : string) :
  clean_text_data english_stopwords s
  = join " " (cleaned_words english_stopwords s) /\
  Forall (fun w => all_chars islower w = true /\
                   3 <= String.length w /\
                   ~ In w english_stopwords /\ ~ In w extra_stops)
         (cleaned_words english_stopwords s) /\
  all_chars (fun c => islower c || Ascii.eqb c " ")
            (clean_text_data english_stopwords s) = true.
Proof.
  assert (Hwords :
            Forall (fun w => all_chars islower w = true /\
                             3 <= String.length w /\
                             ~ In w english_stopwords /\ ~ In w extra_stops)
                   (cleaned_words english_stopwords s)).
  { pose proof (cleaned_words_lowercase s) as Hlow.
    rewrite Forall_forall in Hlow |- *. intros w Hw.
    split; [now apply Hlow|].
    unfold cleaned_words in Hw. apply filter_In in Hw.
    destruct Hw as [_ Hw]. apply andb_true_iff in Hw.
    destruct Hw as [Hstop Hlen]. apply Nat.ltb_lt in Hlen.
    split; [lia|]. apply negb_true_iff in Hstop.
    assert (Hnot : ~ In w (stop_words english_stopwords)).
    { intros Hin. unfold in_stop_words in Hstop.
      assert (Ht : existsb (String.eqb w) (stop_words english_stopwords)
                   = true).
      { apply existsb_exists. exists w. split; [exact Hin|].
        apply String.eqb_refl. }
      congruence. }
    unfold stop_words in Hnot. split; intros Hin; apply Hnot;
      apply in_or_app; auto. }
  split; [reflexivity|]. split; [exact Hwords|].
  change (clean_text_data english_stopwords s)
    with (join " " (cleaned_words english_stopwords s)).
  rewrite all_chars_join by reflexivity. apply forallb_forall.
  intros w Hw. rewrite Forall_forall in Hwords.
  destruct (Hwords w Hw) as [Hlow _].
  clear - Hlow. induction w as [|c w IH]; [reflexivity|].
  simpl in *. apply andb_true_iff in Hlow. destruct Hlow as [Hc Hw].
  now rewrite Hc, IH.
Qed.

(** X14: the word-cloud tab shows its notice exactly when every filtered
    row has a text made of white space only; a selection without rows is
    such a case, a row without text is not (its text reads "nan"). *)
Theorem notice_iff_no_text (filtered : list row) :
  tab4 english_stopwords filtered = NoTextWarning <->
  Forall (fun r => exists s, text r = Some s /\ all_chars isspace s = true)
         filtered.
Proof.
  rewrite LoadFacts.tab4_warning_iff, BlankFacts.strip_empty_iff.
  unfold text_data. rewrite all_chars_join by reflexivity.
  rewrite forallb_forall, Forall_forall. split.
  - intros H r Hr.
    specialize (H (astype_str (text r))
                  (in_map (fun r => astype_str (text r)) _ _ Hr)).
    destruct (text r) as [s|]; [now exists s | discriminate H].
  - intros H x Hx. apply in_map_iff in Hx. destruct Hx as (r & <- & Hr).
    destruct (H r Hr) as (s & -> & Hs). exact Hs.
Qed.

End WordCloud.

End WordCloudFacts.

(* ------------------------------------------------------------------ *)
(** ** The options of the side bar *)

Module SidebarFacts.

Import App GroupBy KeyOrders.

Lemma in_dropna {A : Type} (a : A) (col : list (option A)) :
  In a (dropna col) <-> In (Some a) col.
Proof.
  unfold dropna. rewrite in_flat_map. split.
  - intros ([b|] & Hin & Hb); simpl in Hb; [|contradiction].
    destruct Hb as [->|[]]. exact Hin.
  - intros Hin. exists (Some a). split; [exact Hin | now left].
Qed.

Section Unique.

Context {A : Type} (eqb : A -> A -> bool).
Hypothesis eqb_eq : forall x y, eqb x y = true <-> x = y.

Lemma existsb_eqb (x : A) (l : list A) : existsb (eqb x) l = true <-> In x l.
Proof.
  rewrite existsb_exists. split.
  - intros (y & Hy & E). apply eqb_eq in E. now subst.
  - intros Hin. exists x. split; [exact Hin | now apply eqb_eq].
Qed.

Lemma unique_from_in (seen col : list A) (x : A) :
  In x (unique_from eqb seen col) <-> In x col /\ ~ In x seen.
Proof.
  revert seen. induction col as [|x0 col IH]; intros seen; cbn [unique_from].
  - simpl. tauto.
  - destruct (existsb (eqb x0) seen) eqn:E.
    + apply existsb_eqb in E. rewrite IH. simpl. split.
      * intros [H1 H2]. auto.
      * intros [[->|H1] H2]; [contradiction | auto].
    + assert (Hx0 : ~ In x0 seen).
      { intros Hin. apply existsb_eqb in Hin. congruence. }
      simpl. rewrite IH. simpl. split.
      * intros [->|[H1 H2]]; auto.
      * intros [[->|H1] H2]; [now left|].
        destruct (eqb x0 x) eqn:Ex.
        -- apply eqb_eq in Ex. now left.
        -- right. split; [exact H1|]. intros [->|Hs]; [|contradiction].
           assert (Ht : eqb x x = true) by now apply eqb_eq. congruence.
Qed.

Lemma unique_from_nodup (seen col : list A) : NoDup (unique_from eqb seen col).
Proof.
  revert seen. induction col as [|x0 col IH]; intros seen; cbn [unique_from].
  - constructor.
  - destruct (existsb (eqb x0) seen); [apply IH|]. constructor; [|apply IH].
    rewrite unique_from_in. intros [_ Hn]. apply Hn. now left.
Qed.

End Unique.

Section Sorted.

Context {A : Type} (cmp : A -> A -> comparison) `{KeyOrder A cmp}.

Lemma insert_sorted_perm (x : A) (l : list A) :
  Permutation (x :: l) (insert_sorted cmp x l).
Proof.
  induction l as [|y l IH]; cbn [insert_sorted]; [reflexivity|].
  destruct (cmp x y); try reflexivity.
  rewrite perm_swap. now apply perm_skip.
Qed.

Lemma sorted_perm (l : list A) : Permutation l (sorted cmp l).
Proof.
  unfold sorted. induction l as [|x l IH]; cbn [fold_right]; [reflexivity|].
  rewrite <- insert_sorted_perm. now apply perm_skip.
Qed.

Lemma insert_sorted_sorted (x : A) (l : list A) :
  Sorted (fun a b => cmp a b <> Gt) l ->
  Sorted (fun a b => cmp a b <> Gt) (insert_sorted cmp x l).
Proof.
  induction 1 as [|y l Hl IH Hhd]; cbn [insert_sorted].
  - repeat constructor.
  - destruct (cmp x y) eqn:E.
    + constructor; [now constructor|]. constructor. congruence.
    + constructor; [now constructor|]. constructor. congruence.
    + constructor; [exact IH|].
      assert (Hyx : cmp y x <> Gt).
      { rewrite cmp_antisym, E. discriminate. }
      destruct l as [|z l]; cbn [insert_sorted].
      * now constructor.
      * inversion Hhd; subst. destruct (cmp x z); now constructor.
Qed.

Lemma sorted_sorted (l : list A) :
  Sorted (fun a b => cmp a b <> Gt) (sorted cmp l).
Proof.
  unfold sorted. induction l as [|x l IH]; cbn [fold_right].
  - constructor.
  - now apply insert_sorted_sorted.
Qed.

End Sorted.

Lemma years_in (df : list row) (y : Z) :
  In y (years df) <-> exists r, In r df /\ year r = Some y.
Proof.
  unfold years.
  split.
  - intros Hin.
    apply (Permutation_in _ (Permutation_sym (sorted_perm Z.compare _))) in Hin.
    apply (unique_from_in Z.eqb Z.eqb_eq) in Hin. destruct Hin as [Hin _].
    apply in_dropna, in_map_iff in Hin. destruct Hin as (r & E & Hr).
    now exists r.
  - intros (r & Hr & E).
    apply (Permutation_in _ (sorted_perm Z.compare _)).
    apply (unique_from_in Z.eqb Z.eqb_eq). split; [|tauto].
    apply in_dropna, in_map_iff. now exists r.
Qed.

Lemma clubs_in (df : list row) (c : string) :
  In c (clubs df) <-> exists r, In r df /\ club_name r = Some c.
Proof.
  unfold clubs.
  split.
  - intros Hin.
    apply (Permutation_in _ (Permutation_sym (sorted_perm String.compare _)))
      in Hin.
    apply (unique_from_in String.eqb String.eqb_eq) in Hin.
    destruct Hin as [Hin _].
    apply in_dropna, in_map_iff in Hin. destruct Hin as (r & E & Hr).
    now exists r.
  - intros (r & Hr & E).
    apply (Permutation_in _ (sorted_perm String.compare _)).
    apply (unique_from_in String.eqb String.eqb_eq). split; [|tauto].
    apply in_dropna, in_map_iff. now exists r.
Qed.

(** X15: the select boxes offer "All" and exactly the years and the
    clubs that occur in the loaded table, each once and in ascending
    order; so every single option, taken with "All" on the other
    dimension, selects at least one row. *)
Theorem sidebar_options_select_rows (df : list row) :
  (forall y, In (Year y) (year_options df) <->
             exists r, In r df /\ year r = Some y) /\
  (forall c, In c (clubs df) <-> exists r, In r df /\ club_name r = Some c) /\
  NoDup (year_options df) /\ NoDup (clubs df) /\
  Sorted Z.le (years df) /\
  Sorted (fun a b => String.compare a b <> Gt) (clubs df) /\
  (forall y, In (Year y) (year_options df) ->
             filtered_df df (Year y) "All" <> []) /\
  (forall c, In c (clubs df) -> filtered_df df AllYears c <> []).
Proof.
  assert (Hyo : forall y, In (Year y) (year_options df) <-> In y (years df)).
  { intros y. unfold year_options. simpl. rewrite in_map_iff. split.
    - intros [E|(y' & [= ->] & Hy)]; [discriminate | exact Hy].
    - intros Hy. right. now exists y. }
  assert (Hny : NoDup (years df)).
  { unfold years. apply (Permutation_NoDup (sorted_perm Z.compare _)).
    apply (unique_from_nodup Z.eqb Z.eqb_eq). }
  repeat split.
  - rewrite Hyo. apply years_in.
  - rewrite Hyo. apply years_in.
  - apply clubs_in.
  - apply clubs_in.
  - unfold year_options. constructor.
    + rewrite in_map_iff. intros (y & E & _). discriminate.
    + apply Finite.Injective_map_NoDup; [|exact Hny]. intros a b [= ->].
      reflexivity.
  - unfold clubs. apply (Permutation_NoDup (sorted_perm String.compare _)).
    apply (unique_from_nodup String.eqb String.eqb_eq).
  - apply (sorted_sorted Z.compare).
  - apply (sorted_sorted String.compare).
  - intros y Hy. apply Hyo, years_in in Hy. destruct Hy as (r & Hr & E).
    rewrite DashboardFacts.filtered_df_matches. intros Hnil.
    assert (Hin : In r (filter (matches_selection (Year y) "All") df)).
    { apply filter_In. split; [exact Hr|].
      unfold matches_selection, year_constraint, club_constraint, year_is.
      rewrite E, Z.eqb_refl. reflexivity. }
    rewrite Hnil in Hin. exact Hin.
  - intros c Hc. apply clubs_in in Hc. destruct Hc as (r & Hr & E).
    rewrite DashboardFacts.filtered_df_matches. intros Hnil.
    assert (Hin : In r (filter (matches_selection AllYears c) df)).
    { apply filter_In. split; [exact Hr|].
      unfold matches_selection, year_constraint, club_constraint, club_is.
      rewrite E, String.eqb_refl. now destruct (String.eqb c "All"). }
    rewrite Hnil in Hin. exact Hin.
Qed.

Lemma sidebar_options_select_rows_witness :
  filtered_df Examples.loaded AllYears "Real Madrid" <> [].
Proof.
  destruct (sidebar_options_select_rows Examples.loaded)
    as (_ & _ & _ & _ & _ & _ & _ & H).
  apply H. right. left. reflexivity.
Defined.

End SidebarFacts.

(* ------------------------------------------------------------------ *)
(** ** Ranked counts *)

Module RankedFacts.

Import App GroupBy KeyOrders.

Lemma total_perm {K : Type} (l l' : list (K * nat)) :
  Permutation l l' -> total l = total l'.
Proof.
  induction 1 as [|x l l' _ IH|x y l|l l' l'' _ IH1 _ IH2]; simpl;
    unfold total in *; simpl; lia.
Qed.

Lemma in_firstn {A : Type} (n : nat) (l : list A) (x : A) :
  In x (firstn n l) -> In x l.
Proof.
  revert l. induction n as [|n IH]; intros [|y l]; cbn [firstn];
    try contradiction.
  intros [->|H]; [now left | right; now apply IH].
Qed.

Lemma sorted_firstn {A : Type} (R : A -> A -> Prop) (n : nat) (l : list A) :
  StronglySorted R l -> StronglySorted R (firstn n l).
Proof.
  intros H. revert n. induction H as [|x l Hl IH Hall]; intros [|n];
    cbn [firstn]; try constructor.
  - apply IH.
  - rewrite Forall_forall in Hall |- *. intros y Hy. apply Hall.
    now apply in_firstn with n.
Qed.

(** In a sorted list what comes first is related to what comes after. *)
Lemma sorted_firstn_skipn {A : Type} (R : A -> A -> Prop) (n : nat)
  (l : list A) (x y : A) :
  StronglySorted R l -> In x (firstn n l) -> In y (skipn n l) -> R x y.
Proof.
  intros H. revert n. induction H as [|z l Hl IH Hall]; intros [|n];
    cbn [firstn skipn]; try contradiction.
  intros [->|Hx] Hy.
  - rewrite Forall_forall in Hall. apply Hall.
    rewrite <- (firstn_skipn n l). apply in_or_app. now right.
  - now apply (IH n).
Qed.

Lemma increasing_keys_nodup {K : Type} (cmp : K -> K -> comparison)
  `{KeyOrder K cmp} (g : list (K * nat)) :
  keys_increasing cmp g -> NoDup (map fst g).
Proof.
  unfold keys_increasing. induction 1 as [|x g Hg IH Hall]; cbn [map].
  - constructor.
  - constructor; [|exact IH]. rewrite in_map_iff. intros (y & E & Hy).
    rewrite Forall_forall in Hall. specialize (Hall y Hy).
    rewrite E, (GroupOrderFacts.cmp_refl cmp) in Hall. discriminate.
Qed.

Lemma nodup_firstn {A : Type} (n : nat) (l : list A) :
  NoDup l -> NoDup (firstn n l).
Proof.
  intros H. revert n. induction H as [|x l Hx Hl IH]; intros [|n];
    cbn [firstn]; try constructor.
  - intros Hin. apply Hx. now apply in_firstn with n.
  - apply IH.
Qed.

(** The rows under a one-column key. *)
Lemma rows_with_key1 {R : Type} (f : R -> option string)
  (p : string -> R -> bool) :
  (forall a r, p a r = true <-> f r = Some a) ->
  forall a df,
    rows_with_key String.compare f a df = filter (p a) df.
Proof.
  intros Hp a df. unfold rows_with_key. apply filter_ext. intros r.
  apply GroupedViews.bool_eq_iff. rewrite Hp.
  destruct (f r) as [a'|].
  - rewrite (GroupOrderFacts.same_key_iff String.compare). split.
    + now intros ->.
    + now intros [= ->].
  - split; discriminate.
Qed.

(** The descending sort by insertion honours the contract of
    [sort_values]. *)
Lemma insert_by_count_perm (x : string * nat) (l : list (string * nat)) :
  Permutation (x :: l) (Examples.insert_by_count x l).
Proof.
  induction l as [|y l IH]; cbn [Examples.insert_by_count]; [reflexivity|].
  destruct (Nat.leb (snd y) (snd x)); [reflexivity|].
  rewrite perm_swap. now apply perm_skip.
Qed.

Lemma insert_by_count_sorted (x : string * nat) (l : list (string * nat)) :
  StronglySorted (fun a b => snd b <= snd a) l ->
  StronglySorted (fun a b => snd b <= snd a) (Examples.insert_by_count x l).
Proof.
  induction 1 as [|y l Hl IH Hall]; cbn [Examples.insert_by_count].
  - repeat constructor.
  - destruct (Nat.leb (snd y) (snd x)) eqn:E.
    + apply Nat.leb_le in E. constructor; [now constructor|].
      constructor; [exact E|].
      eapply Forall_impl; [|exact Hall]. cbn beta. intros z Hz. lia.
    + apply Nat.leb_gt in E. constructor; [exact IH|].
      apply (Permutation_Forall (insert_by_count_perm x l)).
      constructor; [lia | exact Hall].
Qed.

Lemma sort_by_count_contract (l : list (string * nat)) :
  Permutation l (Examples.sort_by_count l) /\
  StronglySorted (fun a b => snd b <= snd a) (Examples.sort_by_count l).
Proof.
  unfold Examples.sort_by_count.
  induction l as [|x l [IHp IHs]]; cbn [fold_right].
  - split; constructor.
  - split.
    + rewrite <- insert_by_count_perm. now apply perm_skip.
    + now apply insert_by_count_sorted.
Qed.

Section Contract.

Variable sort_values : list (string * nat) -> list (string * nat).

(** [sort_values(ascending=False)] permutes the rows and leaves the
    counts in descending order; the order among equal counts is the
    library's. *)
Hypothesis sort_contract :
  forall l, Permutation l (sort_values l) /\
            StronglySorted (fun a b => snd b <= snd a) (sort_values l).

(** The clubs of the grouped counts are the clubs of the rows. *)
Lemma club_groups (filtered : list row) :
  let groups := size String.compare club_name filtered in
  (forall c, In c (map fst groups) <-> In c (clubs filtered)) /\
  List.length groups = List.length (clubs filtered).
Proof.
  intros groups.
  destruct (GroupOrderFacts.groupby_size_exact String.compare club_name
              filtered) as (Hinc & Hcount & Hall).
  fold groups in Hinc, Hcount, Hall.
  assert (Hin : forall c, In c (map fst groups) <-> In c (clubs filtered)).
  { intros c. rewrite SidebarFacts.clubs_in, in_map_iff. split.
    - intros ([c' n] & E & Hg). cbn [fst] in E. subst c'.
      destruct (Hcount c n Hg) as [Hn Hpos].
      rewrite (rows_with_key1 club_name club_is GroupedViews.club_is_iff)
        in Hn.
      destruct (filter (club_is c) filtered) as [|r l] eqn:Ef;
        [simpl in Hn; lia|].
      assert (Hr : In r (filter (club_is c) filtered))
        by (rewrite Ef; now left).
      apply filter_In in Hr. destruct Hr as [Hr Hc].
      exists r. split; [exact Hr|]. now apply GroupedViews.club_is_iff.
    - intros (r & Hr & Hc). eexists. split; [|exact (Hall r c Hr Hc)].
      reflexivity. }
  split; [exact Hin|].
  rewrite <- (length_map fst groups). apply Permutation_length.
  apply NoDup_Permutation.
  - now apply (increasing_keys_nodup String.compare).
  - unfold clubs.
    apply (Permutation_NoDup (SidebarFacts.sorted_perm String.compare _)).
    apply (SidebarFacts.unique_from_nodup String.eqb String.eqb_eq).
  - exact Hin.
Qed.

(** X16: the top-clubs chart shows the ten most active clubs.  It has
    ten bars when the filtered rows have ten clubs or more and a bar
    for every club otherwise, one club a bar, in descending order of
    volume; the volume of a club is the number of filtered rows of that
    club and is not zero; and no club left out has more tweets than a
    club shown. *)
Theorem club_rank_is_top10 (filtered : list row) :
  List.length (club_rank sort_values filtered)
  = Nat.min 10 (List.length (clubs filtered)) /\
  (List.length (clubs filtered) <= 10 ->
   forall c, In c (clubs filtered) ->
             In c (map fst (club_rank sort_values filtered))) /\
  (forall c, In c (map fst (club_rank sort_values filtered)) ->
             In c (clubs filtered)) /\
  List.length (club_rank sort_values filtered) <= 10 /\
  NoDup (map fst (club_rank sort_values filtered)) /\
  StronglySorted (fun a b => snd b <= snd a)
                 (club_rank sort_values filtered) /\
  (forall c n, In (c, n) (club_rank sort_values filtered) ->
               0 < n /\ n = List.length (filter (club_is c) filtered)) /\
  (forall c, (exists r, In r filtered /\ club_name r = Some c) ->
             ~ In c (map fst (club_rank sort_values filtered)) ->
             List.length (club_rank sort_values filtered) = 10 /\
             forall c' n', In (c', n') (club_rank sort_values filtered) ->
                           List.length (filter (club_is c) filtered) <= n').
Proof.
  destruct (club_groups filtered) as [Hclubs Hlen].
  unfold club_rank.
  set (groups := size String.compare club_name filtered) in *.
  destruct (sort_contract groups) as [Hperm Hsorted].
  destruct (GroupOrderFacts.groupby_size_exact String.compare club_name
              filtered) as (Hinc & Hcount & Hall).
  fold groups in Hinc, Hcount, Hall.
  assert (Hlen' : List.length (sort_values groups)
                  = List.length (clubs filtered)).
  { now rewrite <- (Permutation_length Hperm). }
  split; [now rewrite length_firstn, Hlen'|].
  split; [|split; [|split; [apply firstn_le_length|split; [|split; [|split]]]]].
  - intros Hle c Hc. rewrite firstn_all2 by lia.
    apply (Permutation_in _ (Permutation_map fst Hperm)). now apply Hclubs.
  - intros c Hc. apply Hclubs. rewrite in_map_iff in Hc |- *.
    destruct Hc as (x & E & Hx). exists x. split; [exact E|].
    apply in_firstn in Hx.
    exact (Permutation_in _ (Permutation_sym Hperm) Hx).
  - rewrite <- firstn_map. apply nodup_firstn.
    apply (Permutation_NoDup (Permutation_map fst Hperm)).
    now apply (increasing_keys_nodup String.compare).
  - now apply sorted_firstn.
  - intros c n Hin. apply in_firstn in Hin.
    apply (Permutation_in _ (Permutation_sym Hperm)) in Hin.
    destruct (Hcount c n Hin) as [Hn Hpos]. split; [exact Hpos|].
    rewrite Hn.
    now rewrite (rows_with_key1 club_name club_is GroupedViews.club_is_iff).
  - intros c (r & Hr & Hc) Hout.
    pose proof (Hall r c Hr Hc) as Hg.
    rewrite (rows_with_key1 club_name club_is GroupedViews.club_is_iff)
      in Hg.
    apply (Permutation_in _ Hperm) in Hg.
    rewrite <- (firstn_skipn 10 (sort_values groups)) in Hg.
    apply in_app_or in Hg. destruct Hg as [Hg|Hg].
    + exfalso. apply Hout. apply in_map_iff.
      now exists (c, List.length (filter (club_is c) filtered)).
    + split.
      * rewrite length_firstn.
        assert (Hs : 0 < List.length (skipn 10 (sort_values groups))).
        { destruct (skipn 10 (sort_values groups)); [contradiction|].
          simpl. lia. }
        rewrite length_skipn in Hs. lia.
      * intros c' n' Hin'.
        exact (sorted_firstn_skipn _ 10 _ _ _ Hsorted Hin' Hg).
Qed.

(** X17: the sentiment-volume chart has one bar for each sentiment of
    the filtered rows, in descending order of volume; the volume of a
    bar is the number of filtered rows with that sentiment, and the
    volumes add up to the number of filtered rows that have one. *)
Theorem sentiment_counts_volume (filtered : list row) :
  NoDup (map fst (sentiment_counts sort_values filtered)) /\
  StronglySorted (fun a b => snd b <= snd a)
                 (sentiment_counts sort_values filtered) /\
  (forall s, In s (map fst (sentiment_counts sort_values filtered)) <->
             exists r, In r filtered /\ sentiment r = Some s) /\
  (forall s n, In (s, n) (sentiment_counts sort_values filtered) ->
               n = count_sentiment s filtered) /\
  total (sentiment_counts sort_values filtered)
  = List.length
      (filter (fun r => TextCleaning.notna (sentiment r)) filtered).
Proof.
  unfold sentiment_counts.
  set (groups := size String.compare sentiment filtered).
  destruct (sort_contract groups) as [Hperm Hsorted].
  destruct (GroupOrderFacts.groupby_size_exact String.compare sentiment
              filtered) as (Hinc & Hcount & Hall).
  fold groups in Hinc, Hcount, Hall.
  assert (Hrows : forall s, rows_with_key String.compare sentiment s filtered
                            = filter (sentiment_is s) filtered).
  { intros s.
    apply (rows_with_key1 sentiment sentiment_is
             GroupedViews.sentiment_is_iff). }
  split; [|split; [exact Hsorted|split; [|split]]].
  - apply (Permutation_NoDup (Permutation_map fst Hperm)).
    now apply (increasing_keys_nodup String.compare).
  - intros s. rewrite in_map_iff. split.
    + intros ([s' n] & E & Hin). cbn [fst] in E. subst s'.
      apply (Permutation_in _ (Permutation_sym Hperm)) in Hin.
      destruct (Hcount s n Hin) as [Hn Hpos]. rewrite Hrows in Hn.
      destruct (filter (sentiment_is s) filtered) as [|r l] eqn:Ef;
        [simpl in Hn; lia|].
      assert (Hr : In r (filter (sentiment_is s) filtered))
        by (rewrite Ef; now left).
      apply filter_In in Hr. destruct Hr as [Hr Hs].
      exists r. split; [exact Hr|].
      now apply GroupedViews.sentiment_is_iff.
    + intros (r & Hr & Hs). pose proof (Hall r s Hr Hs) as Hg.
      apply (Permutation_in _ Hperm) in Hg.
      now exists (s, List.length (rows_with_key String.compare sentiment s
                                    filtered)).
  - intros s n Hin.
    apply (Permutation_in _ (Permutation_sym Hperm)) in Hin.
    destruct (Hcount s n Hin) as [Hn _]. now rewrite Hn, Hrows.
  - rewrite <- (total_perm _ _ Hperm). apply GroupByFacts.total_size.
Qed.

End Contract.

Lemma club_rank_is_top10_witness :
  List.length
    (club_rank Examples.sort_by_count
               (load_data Examples.iso_date (Examples.league 12))) = 10 /\
  List.length (club_rank Examples.sort_by_count Examples.loaded) = 2.
Proof.
  destruct (club_rank_is_top10 Examples.sort_by_count sort_by_count_contract
              (load_data Examples.iso_date (Examples.league 12))) as [H _].
  destruct (club_rank_is_top10 Examples.sort_by_count sort_by_count_contract
              Examples.loaded) as [H' _].
  split; [exact H | exact H'].
Defined.

Lemma sentiment_counts_volume_witness :
  total (sentiment_counts Examples.sort_by_count Examples.loaded) = 2.
Proof.
  destruct (sentiment_counts_volume Examples.sort_by_count
              sort_by_count_contract Examples.loaded)
    as (_ & _ & _ & _ & H).
  exact H.
Defined.

End RankedFacts.

(* ------------------------------------------------------------------ *)
(** ** The summary the Classifier prints *)

Module SummaryFacts.

Import AnalyzeSentiment GroupBy KeyOrders Summary.

Section Contract.

Variable sentiment_analyzer : string -> outcome (list prediction).
Variable sort_values : list (string * nat) -> list (string * nat).

(** [value_counts] permutes the groups and leaves the counts in
    descending order. *)
Hypothesis sort_contract :
  forall l, Permutation l (sort_values l) /\
            StronglySorted (fun a b => snd b <= snd a) (sort_values l).

(** X18: the label summary printed at the end accounts for every row
    written: it lists each label of the output once, in descending
    order of frequency, with the number of output rows that carry it,
    and the frequencies add up to the number of rows written, which is
    the number of rows with a usable text. *)
Theorem summary_accounts_for_every_row (df : list row) :
  let out := analyze_sentiment sentiment_analyzer df in
  total (value_counts sort_values out) = List.length out /\
  total (value_counts sort_values out) = List.length (clean df) /\
  NoDup (map fst (value_counts sort_values out)) /\
  StronglySorted (fun a b => snd b <= snd a) (value_counts sort_values out) /\
  (forall l n, In (l, n) (value_counts sort_values out) ->
               0 < n /\
               n = List.length
                     (filter (fun r => String.eqb (sentiment r) l) out)) /\
  (forall r, In r out -> In (sentiment r) (map fst (value_counts sort_values out))).
Proof.
  intros out. unfold value_counts.
  set (groups := size String.compare (fun r => Some (sentiment r)) out).
  destruct (sort_contract groups) as [Hperm Hsorted].
  destruct (GroupOrderFacts.groupby_size_exact String.compare
              (fun r => Some (sentiment r)) out) as (Hinc & Hcount & Hall).
  fold groups in Hinc, Hcount, Hall.
  assert (Hrows : forall l,
             rows_with_key String.compare (fun r => Some (sentiment r)) l out
             = filter (fun r => String.eqb (sentiment r) l) out).
  { intros l.
    apply (RankedFacts.rows_with_key1 (fun r => Some (sentiment r))
             (fun l r => String.eqb (sentiment r) l)).
    intros a r. rewrite String.eqb_eq. split; [now intros -> | now intros [= ->]]. }
  assert (Htotal : total (sort_values groups) = List.length out).
  { rewrite <- (RankedFacts.total_perm _ _ Hperm). unfold groups.
    rewrite GroupByFacts.total_size. cbn [TextCleaning.notna].
    now rewrite DashboardFacts.filter_true. }
  split; [exact Htotal|]. split.
  - rewrite Htotal. unfold out.
    apply ClassifierFacts.analyze_length.
  - split; [|split; [exact Hsorted|split]].
    + apply (Permutation_NoDup (Permutation_map fst Hperm)).
      now apply (RankedFacts.increasing_keys_nodup String.compare).
    + intros l n Hin.
      apply (Permutation_in _ (Permutation_sym Hperm)) in Hin.
      destruct (Hcount l n Hin) as [Hn Hpos]. split; [exact Hpos|].
      now rewrite Hn, Hrows.
    + intros r Hr. pose proof (Hall r (sentiment r) Hr eq_refl) as Hg.
      apply (Permutation_in _ Hperm) in Hg. apply in_map_iff.
      now exists (sentiment r,
                  List.length (rows_with_key String.compare
                                 (fun r => Some (sentiment r))
                                 (sentiment r) out)).
Qed.

End Contract.

Lemma summary_accounts_for_every_row_witness :
  total (value_counts Examples.sort_by_count
           (analyze_sentiment Examples.sst2 Examples.sampled)) = 2.
Proof.
  destruct (summary_accounts_for_every_row Examples.sst2
              Examples.sort_by_count RankedFacts.sort_by_count_contract
              Examples.sampled) as [H _].
  exact H.
Defined.

End SummaryFacts.

(* ------------------------------------------------------------------ *)
(** ** The length of a cleaned club name *)

Module NameLengths.

Import PyStr App.

Lemma length_sub_class (cls : ascii -> bool) (s : string) :
  String.length (Re.sub (Re.char_class cls) " " s) = String.length s.
Proof.
  unfold Re.sub. induction s as [|c s IH]; [reflexivity|].
  cbn [Re.sub_from Re.char_class]. destruct (cls c); simpl; now rewrite IH.
Qed.

Lemma length_sub_delete matcher (k : nat) (s : string) :
  String.length (Re.sub_from matcher "" k s) <= String.length s.
Proof.
  revert k. induction s as [|c s IH]; intros k; [reflexivity|].
  cbn [Re.sub_from]. destruct k as [|k].
  - destruct (matcher (String c s)) as [[|n]|]; simpl;
      try (specialize (IH 0); lia). specialize (IH n). lia.
  - simpl. specialize (IH k). lia.
Qed.

Lemma length_lstrip (s : string) : String.length (lstrip s) <= String.length s.
Proof.
  induction s as [|c s IH]; [reflexivity|]. cbn [lstrip].
  destruct (isspace c); simpl; lia.
Qed.

Lemma length_rstrip (s : string) : String.length (rstrip s) <= String.length s.
Proof.
  induction s as [|c s IH]; [reflexivity|]. cbn [rstrip].
  destruct (rstrip s) as [|d r]; [destruct (isspace c)|]; simpl in *; lia.
Qed.

Lemma length_title_from (b : bool) (s : string) :
  String.length (title_from b s) = String.length s.
Proof.
  revert b. induction s as [|c s IH]; intros b; [reflexivity|].
  simpl. now rewrite IH.
Qed.

Lemma sub_class_unchanged (cls : ascii -> bool) (s : string) :
  all_chars (fun c => negb (cls c)) s = true ->
  Re.sub (Re.char_class cls) " " s = s.
Proof.
  unfold Re.sub. induction s as [|c s IH]; [reflexivity|]. simpl.
  intros H. apply andb_true_iff in H. destruct H as [Hc Hs].
  apply negb_true_iff in Hc. rewrite Hc. now rewrite IH.
Qed.

(** X19: cleaning a club name never makes it longer: the separators are
    replaced one for one (a name without underscore or hyphen is left
    as it is by that step), and the later steps only delete or change
    the case of characters. *)
Theorem club_name_never_longer (s : string) :
  String.length (replace_separators s) = String.length s /\
  (all_chars (fun c => negb (is_separator c)) s = true ->
   replace_separators s = s) /\
  String.length (remove_boilerplate s) <= String.length s /\
  String.length (clean_club_name s) <= String.length s.
Proof.
  split; [apply length_sub_class|]. split; [apply sub_class_unchanged|].
  split; [apply length_sub_delete|].
  unfold clean_club_name, title, strip. rewrite length_title_from.
  pose proof (length_rstrip
                (lstrip (remove_boilerplate (replace_separators s)))) as H1.
  pose proof (length_lstrip (remove_boilerplate (replace_separators s)))
    as H2.
  pose proof (length_sub_delete (Re.alternation true boilerplate) 0
                (replace_separators s)) as H3.
  fold (Re.sub (Re.alternation true boilerplate) "" (replace_separators s))
    in H3.
  fold (remove_boilerplate (replace_separators s)) in H3.
  pose proof (length_sub_class is_separator s) as H4.
  fold (replace_separators s) in H4. lia.
Qed.

Lemma club_name_never_longer_witness :
  replace_separators "Real Madrid" = "Real Madrid".
Proof.
  destruct (club_name_never_longer "Real Madrid") as (_ & H & _).
  apply H. reflexivity.
Defined.

End NameLengths.

(* ------------------------------------------------------------------ *)
(** ** The sentiment balance of the clubs *)

Module BalanceFacts.

Import PyStr App GroupBy KeyOrders.

Lemma capitalize_not_club_name (s : string) : capitalize s <> "club_name".
Proof.
  destruct s as [|c s]; [discriminate|]. cbn [capitalize].
  intros [= E _]. revert E.
  destruct c as [[] [] [] [] [] [] [] []]; discriminate.
Qed.

Section Loaded.

Variable to_datetime : string -> option timestamp.

Lemma loaded_sentiment (csv : list csv_row) (y : year_selection) (c : string)
  (r : row) :
  In r (filtered_df (load_data to_datetime csv) y c) ->
  sentiment r <> Some "club_name".
Proof.
  rewrite DashboardFacts.filtered_df_matches. intros Hr.
  apply filter_In in Hr. destruct Hr as [Hr _].
  unfold load_data in Hr. apply in_map_iff in Hr.
  destruct Hr as (r0 & <- & _). cbn [load_row sentiment].
  destruct (csv_sentiment r0) as [s|]; [|discriminate].
  cbn [option_map]. intros [= E].
  exact (capitalize_not_club_name s E).
Qed.

End Loaded.

Lemma in_unstack_columns (g : list ((string * string) * nat)) (s : string) :
  In s (unstack_columns g) <-> exists c n, In ((c, s), n) g.
Proof.
  unfold unstack_columns. split.
  - intros Hin.
    apply (Permutation_in _
             (Permutation_sym (SidebarFacts.sorted_perm String.compare _)))
      in Hin.
    apply (SidebarFacts.unique_from_in String.eqb String.eqb_eq) in Hin.
    destruct Hin as [Hin _]. apply in_map_iff in Hin.
    destruct Hin as ([[c s'] n] & E & Hin). cbn [fst snd] in E. subst s'.
    now exists c, n.
  - intros (c & n & Hin).
    apply (Permutation_in _ (SidebarFacts.sorted_perm String.compare _)).
    apply (SidebarFacts.unique_from_in String.eqb String.eqb_eq).
    split; [|tauto]. apply in_map_iff. now exists ((c, s), n).
Qed.

Lemma in_unstack_index (g : list ((string * string) * nat)) (c : string) :
  In c (unstack_index g) <-> exists s n, In ((c, s), n) g.
Proof.
  unfold unstack_index. split.
  - intros Hin.
    apply (Permutation_in _
             (Permutation_sym (SidebarFacts.sorted_perm String.compare _)))
      in Hin.
    apply (SidebarFacts.unique_from_in String.eqb String.eqb_eq) in Hin.
    destruct Hin as [Hin _]. apply in_map_iff in Hin.
    destruct Hin as ([[c' s] n] & E & Hin). cbn [fst snd] in E. subst c'.
    now exists s, n.
  - intros (s & n & Hin).
    apply (Permutation_in _ (SidebarFacts.sorted_perm String.compare _)).
    apply (SidebarFacts.unique_from_in String.eqb String.eqb_eq).
    split; [|tauto]. apply in_map_iff. now exists ((c, s), n).
Qed.

Lemma club_counts_exact (filtered : list row) :
  (forall c s n, In ((c, s), n) (club_counts filtered) ->
                 0 < n /\ n = List.length (pair_rows c s filtered)) /\
  (forall r c s, In r filtered -> club_name r = Some c ->
                 sentiment r = Some s ->
                 In ((c, s), List.length (pair_rows c s filtered))
                    (club_counts filtered)).
Proof.
  destruct (GroupOrderFacts.groupby_size_exact
              (cmp_pair String.compare String.compare)
              (fun r => key2 (club_name r) (sentiment r)) filtered)
    as (_ & Hcount & Hall).
  assert (Hrows : forall c s,
             rows_with_key (cmp_pair String.compare String.compare)
               (fun r => key2 (club_name r) (sentiment r)) (c, s) filtered
             = pair_rows c s filtered).
  { intros c s.
    apply (GroupedViews.rows_with_key2 String.compare String.compare
             club_name sentiment club_is sentiment_is
             GroupedViews.club_is_iff GroupedViews.sentiment_is_iff). }
  split.
  - intros c s n Hin. destruct (Hcount _ _ Hin) as [Hn Hpos].
    split; [exact Hpos|]. now rewrite Hn, Hrows.
  - intros r c s Hr Hc Hs. rewrite <- Hrows. apply (Hall r); [exact Hr|].
    now rewrite Hc, Hs.
Qed.

Lemma count_cell_exact (filtered : list row) (c s : string) :
  count_cell (club_counts filtered) c s
  = List.length (pair_rows c s filtered).
Proof.
  destruct (club_counts_exact filtered) as [Hcount Hall].
  unfold count_cell.
  destruct (find _ (club_counts filtered)) as [[[c' s'] n]|] eqn:Ef.
  - apply find_some in Ef. destruct Ef as [Hin Hp]. cbn [fst snd] in Hp.
    apply andb_true_iff in Hp. destruct Hp as [Hc Hs].
    apply String.eqb_eq in Hc, Hs. subst c' s'. cbn [snd].
    now destruct (Hcount _ _ _ Hin).
  - destruct (pair_rows c s filtered) as [|r l] eqn:Er; [reflexivity|].
    exfalso.
    assert (Hr : In r (pair_rows c s filtered)) by (rewrite Er; now left).
    unfold pair_rows in Hr. apply filter_In in Hr. destruct Hr as [Hr Hp].
    apply andb_true_iff in Hp. destruct Hp as [Hc Hs].
    apply GroupedViews.club_is_iff in Hc.
    apply GroupedViews.sentiment_is_iff in Hs.
    pose proof (Hall r c s Hr Hc Hs) as Hin.
    pose proof (find_none _ _ Ef _ Hin) as Hn. cbn [fst snd] in Hn.
    now rewrite !String.eqb_refl in Hn.
Qed.

Lemma in_columns_iff (filtered : list row) (x : string) :
  x <> "club_name" ->
  in_columns x (club_counts filtered) = true <->
  exists r c, In r filtered /\ club_name r = Some c /\ sentiment r = Some x.
Proof.
  intros Hx. destruct (club_counts_exact filtered) as [Hcount Hall].
  unfold in_columns. cbn [existsb].
  assert (E : String.eqb x "club_name" = false) by now apply String.eqb_neq.
  rewrite E. cbn [orb].
  rewrite (SidebarFacts.existsb_eqb String.eqb String.eqb_eq).
  rewrite in_unstack_columns. split.
  - intros (c & n & Hin). destruct (Hcount _ _ _ Hin) as [Hpos Hn].
    destruct (pair_rows c x filtered) as [|r l] eqn:Er;
      [simpl in Hn; lia|].
    assert (Hr : In r (pair_rows c x filtered)) by (rewrite Er; now left).
    unfold pair_rows in Hr. apply filter_In in Hr. destruct Hr as [Hr Hp].
    apply andb_true_iff in Hp. destruct Hp as [Hc Hs].
    exists r, c. split; [exact Hr|]. split.
    + now apply GroupedViews.club_is_iff.
    + now apply GroupedViews.sentiment_is_iff.
  - intros (r & c & Hr & Hc & Hs). exists c. eexists.
    exact (Hall r c x Hr Hc Hs).
Qed.

(** The clubs of the unstacked table are the clubs that have a labeled
    row, each once. *)
Lemma labeled_clubs (filtered : list row) :
  NoDup (unstack_index (club_counts filtered)) /\
  (forall c, In c (unstack_index (club_counts filtered)) <->
             exists r, In r filtered /\ club_name r = Some c /\
                       sentiment r <> None).
Proof.
  split.
  - unfold unstack_index.
    apply (Permutation_NoDup (SidebarFacts.sorted_perm String.compare _)).
    apply (SidebarFacts.unique_from_nodup String.eqb String.eqb_eq).
  - intros c. rewrite in_unstack_index.
    destruct (club_counts_exact filtered) as [Hcount Hall]. split.
    + intros (s & n & Hin). destruct (Hcount _ _ _ Hin) as [Hpos Hn].
      destruct (pair_rows c s filtered) as [|r l] eqn:Er;
        [simpl in Hn; lia|].
      assert (Hr : In r (pair_rows c s filtered)) by (rewrite Er; now left).
      unfold pair_rows in Hr. apply filter_In in Hr.
      destruct Hr as [Hr Hp]. apply andb_true_iff in Hp.
      destruct Hp as [Hc Hs].
      apply GroupedViews.club_is_iff in Hc.
      apply GroupedViews.sentiment_is_iff in Hs.
      exists r. split; [exact Hr|]. split; [exact Hc|].
      rewrite Hs. discriminate.
    + intros (r & Hr & Hc & Hs).
      destruct (sentiment r) as [s|] eqn:Es; [|contradiction].
      exists s. eexists. exact (Hall r c s Hr Hc Es).
Qed.

(** The descending sort by insertion honours the contract of
    [sort_values] on the ratio column. *)
Lemma insert_by_ratio_perm (x : balance_row nat) (l : list (balance_row nat)) :
  Permutation (x :: l) (Examples.insert_by_ratio x l).
Proof.
  induction l as [|y l IH]; cbn [Examples.insert_by_ratio]; [reflexivity|].
  destruct (Nat.leb (sentiment_ratio y) (sentiment_ratio x)); [reflexivity|].
  rewrite perm_swap. now apply perm_skip.
Qed.

Lemma insert_by_ratio_sorted (x : balance_row nat)
  (l : list (balance_row nat)) :
  StronglySorted (fun a b => sentiment_ratio b <= sentiment_ratio a) l ->
  StronglySorted (fun a b => sentiment_ratio b <= sentiment_ratio a)
                 (Examples.insert_by_ratio x l).
Proof.
  induction 1 as [|y l Hl IH Hall]; cbn [Examples.insert_by_ratio].
  - repeat constructor.
  - destruct (Nat.leb (sentiment_ratio y) (sentiment_ratio x)) eqn:E.
    + apply Nat.leb_le in E. constructor; [now constructor|].
      constructor; [exact E|].
      eapply Forall_impl; [|exact Hall]. cbn beta. intros z Hz. lia.
    + apply Nat.leb_gt in E. constructor; [exact IH|].
      apply (Permutation_Forall (insert_by_ratio_perm x l)).
      constructor; [lia | exact Hall].
Qed.

Lemma sort_by_ratio_contract (l : list (balance_row nat)) :
  Permutation l (Examples.sort_by_ratio l) /\
  StronglySorted (fun a b => sentiment_ratio b <= sentiment_ratio a)
                 (Examples.sort_by_ratio l).
Proof.
  unfold Examples.sort_by_ratio.
  induction l as [|x l [IHp IHs]]; cbn [fold_right].
  - split; constructor.
  - split.
    + rewrite <- insert_by_ratio_perm. now apply perm_skip.
    + now apply insert_by_ratio_sorted.
Qed.

Section Contract.

Variable float : Type.
Variable divide : nat -> nat -> float.

(** [x <= y] on float64. *)
Variable at_most : float -> float -> Prop.

Variable sort_by_ratio : list (balance_row float) -> list (balance_row float).

(** [sort_values("sentiment_ratio", ascending=False)] permutes the rows
    and leaves the ratios in descending order. *)
Hypothesis sort_contract :
  forall l, Permutation l (sort_by_ratio l) /\
            StronglySorted
              (fun a b => at_most (sentiment_ratio b) (sentiment_ratio a))
              (sort_by_ratio l).

Lemma ratio_rows_clubs (g : list ((string * string) * nat)) :
  map balance_club (ratio_rows divide g) = unstack_index g.
Proof.
  unfold ratio_rows. rewrite map_map. cbn [balance_club]. apply map_id.
Qed.

(** X20: the sentiment-balance chart of tab 1.  On the rows filtered
    from a loaded table the step never fails; the chart is drawn exactly
    when the filtered rows hold a Positive and a Negative tweet of named
    clubs, so not on an empty selection.  When it is drawn it shows the
    twenty clubs of highest ratio, or every club with a labeled tweet
    when there are twenty or fewer: one row a club, in descending order
    of the ratio, whose two counts are the numbers of Positive and of
    Negative tweets of the club and whose ratio is the first divided by
    the second plus one; and no club left out has a higher ratio than a
    club shown. *)
Theorem sentiment_balance_guard (to_datetime : string -> option timestamp)
  (csv : list csv_row) (selected_year : year_selection)
  (selected_club : string) :
  let filtered :=
    filtered_df (load_data to_datetime csv) selected_year selected_club in
  let clubs_labeled := unstack_index (club_counts filtered) in
  sentiment_balance divide sort_by_ratio filtered <> Raises /\
  ((exists rows,
       sentiment_balance divide sort_by_ratio filtered
       = Returns (Some rows)) <->
   (exists r c, In r filtered /\ club_name r = Some c /\
                sentiment r = Some "Positive") /\
   (exists r c, In r filtered /\ club_name r = Some c /\
                sentiment r = Some "Negative")) /\
  (filtered = [] ->
   sentiment_balance divide sort_by_ratio filtered = Returns None) /\
  NoDup clubs_labeled /\
  (forall c, In c clubs_labeled <->
             exists r, In r filtered /\ club_name r = Some c /\
                       sentiment r <> None) /\
  (forall rows,
     sentiment_balance divide sort_by_ratio filtered = Returns (Some rows) ->
     List.length rows = Nat.min 20 (List.length clubs_labeled) /\
     NoDup (map balance_club rows) /\
     (forall c, In c (map balance_club rows) -> In c clubs_labeled) /\
     (List.length clubs_labeled <= 20 ->
      forall c, In c clubs_labeled -> In c (map balance_club rows)) /\
     (forall b, In b rows ->
        balance_positive b
        = List.length (pair_rows (balance_club b) "Positive" filtered) /\
        balance_negative b
        = List.length (pair_rows (balance_club b) "Negative" filtered) /\
        sentiment_ratio b
        = divide (balance_positive b) (balance_negative b + 1)) /\
     StronglySorted
       (fun a b => at_most (sentiment_ratio b) (sentiment_ratio a)) rows /\
     (forall c, In c clubs_labeled -> ~ In c (map balance_club rows) ->
        List.length rows = 20 /\
        forall b, In b rows ->
          at_most
            (divide (List.length (pair_rows c "Positive" filtered))
                    (List.length (pair_rows c "Negative" filtered) + 1))
            (sentiment_ratio b))).
Proof.
  intros filtered clubs_labeled.
  assert (Hcols : existsb (String.eqb "club_name")
                    (unstack_columns (club_counts filtered)) = false).
  { destruct (existsb _ _) eqn:E; [|reflexivity]. exfalso.
    apply (SidebarFacts.existsb_eqb String.eqb String.eqb_eq) in E.
    apply in_unstack_columns in E. destruct E as (c & n & Hin).
    destruct (club_counts_exact filtered) as [Hcount _].
    destruct (Hcount _ _ _ Hin) as [Hpos Hn].
    destruct (pair_rows c "club_name" filtered) as [|r l] eqn:Er;
      [simpl in Hn; lia|].
    assert (Hr : In r (pair_rows c "club_name" filtered))
      by (rewrite Er; now left).
    unfold pair_rows in Hr. apply filter_In in Hr. destruct Hr as [Hr Hp].
    apply andb_true_iff in Hp. destruct Hp as [_ Hs].
    apply GroupedViews.sentiment_is_iff in Hs.
    exact (loaded_sentiment to_datetime csv _ _ r Hr Hs). }
  pose proof (in_columns_iff filtered "Positive" ltac:(discriminate)) as HP.
  pose proof (in_columns_iff filtered "Negative" ltac:(discriminate)) as HN.
  destruct (labeled_clubs filtered) as [Hnodup Hclubs].
  fold clubs_labeled in Hnodup, Hclubs.
  unfold sentiment_balance. rewrite Hcols.
  destruct (in_columns "Positive" (club_counts filtered)) eqn:EP;
    destruct (in_columns "Negative" (club_counts filtered)) eqn:EN;
    cbn [andb].
  2-4: (split; [discriminate|]; split;
        [split; [intros [rows E]; discriminate|];
         intros [H1 H2]; try (apply HP in H1; discriminate);
         apply HN in H2; discriminate|];
        split; [reflexivity|]; split; [exact Hnodup|];
        split; [exact Hclubs|]; intros rows E; discriminate).
  split; [discriminate|]. split.
  { split; [intros _; split; [now apply HP | now apply HN]|].
    intros _. eexists. reflexivity. }
  split.
  { intros Hnil. exfalso. destruct (proj1 HP eq_refl) as (r & _ & Hr & _).
    rewrite Hnil in Hr. exact Hr. }
  split; [exact Hnodup|]. split; [exact Hclubs|].
  intros rows E.
  assert (Erows : rows
                  = firstn 20
                      (sort_by_ratio
                         (ratio_rows divide (club_counts filtered))))
    by congruence.
  clear E. subst rows.
  set (g := club_counts filtered) in *.
  set (l := ratio_rows divide g).
  destruct (sort_contract l) as [Hperm Hsorted].
  assert (Hl : map balance_club l = clubs_labeled)
    by apply ratio_rows_clubs.
  assert (Hlen : List.length (sort_by_ratio l) = List.length clubs_labeled).
  { now rewrite <- (Permutation_length Hperm), <- Hl, length_map. }
  assert (Hrow : forall c, In c clubs_labeled ->
                 In {| balance_club := c;
                       balance_positive := count_cell g c "Positive";
                       balance_negative := count_cell g c "Negative";
                       sentiment_ratio :=
                         divide (count_cell g c "Positive")
                                (count_cell g c "Negative" + 1) |}
                    (sort_by_ratio l)).
  { intros c Hc. apply (Permutation_in _ Hperm). unfold l, ratio_rows.
    apply in_map_iff. exists c. split; [reflexivity | exact Hc]. }
  split; [now rewrite length_firstn, Hlen|].
  split; [|split; [|split; [|split; [|split]]]].
  - rewrite <- firstn_map. apply RankedFacts.nodup_firstn.
    apply (Permutation_NoDup (Permutation_map balance_club Hperm)).
    now rewrite Hl.
  - intros c Hc. rewrite <- Hl.
    apply in_map_iff in Hc. destruct Hc as (b & <- & Hb).
    apply RankedFacts.in_firstn in Hb.
    apply in_map. exact (Permutation_in _ (Permutation_sym Hperm) Hb).
  - intros Hle c Hc. rewrite firstn_all2 by lia.
    apply (Permutation_in _ (Permutation_map balance_club Hperm)).
    now rewrite Hl.
  - intros b Hb. apply RankedFacts.in_firstn in Hb.
    apply (Permutation_in _ (Permutation_sym Hperm)) in Hb.
    unfold l, ratio_rows in Hb. apply in_map_iff in Hb.
    destruct Hb as (c & <- & _).
    cbn [balance_club balance_positive balance_negative sentiment_ratio].
    unfold g. now rewrite !count_cell_exact.
  - now apply RankedFacts.sorted_firstn.
  - intros c Hc Hout. pose proof (Hrow c Hc) as Hin.
    rewrite <- (firstn_skipn 20 (sort_by_ratio l)) in Hin.
    apply in_app_or in Hin. destruct Hin as [Hin|Hin].
    + exfalso. apply Hout. apply in_map_iff. eexists.
      split; [|exact Hin]. reflexivity.
    + split.
      * rewrite length_firstn.
        assert (Hs : 0 < List.length (skipn 20 (sort_by_ratio l))).
        { destruct (skipn 20 (sort_by_ratio l)); [contradiction|].
          simpl. lia. }
        rewrite length_skipn in Hs. lia.
      * intros b Hb.
        pose proof (RankedFacts.sorted_firstn_skipn _ 20 _ _ _ Hsorted
                      Hb Hin) as Hle.
        cbn [sentiment_ratio] in Hle. unfold g in Hle.
        now rewrite !count_cell_exact in Hle.
Qed.

End Contract.

Lemma sentiment_balance_guard_witness :
  sentiment_balance Examples.quotient Examples.sort_by_ratio
    (filtered_df (load_data Examples.iso_date Examples.labeled)
                 (Year 1999) "All")
  = Returns None /\
  exists rows,
    sentiment_balance Examples.quotient Examples.sort_by_ratio
      (filtered_df (load_data Examples.iso_date (Examples.league 22))
                   AllYears "All")
    = Returns (Some rows) /\
    List.length rows = 20.
Proof.
  split.
  - destruct (sentiment_balance_guard nat Examples.quotient le
                Examples.sort_by_ratio sort_by_ratio_contract
                Examples.iso_date Examples.labeled (Year 1999) "All")
      as (_ & _ & H & _).
    apply H. reflexivity.
  - destruct (sentiment_balance_guard nat Examples.quotient le
                Examples.sort_by_ratio sort_by_ratio_contract
                Examples.iso_date (Examples.league 22) AllYears "All")
      as (_ & _ & _ & _ & _ & H).
    assert (E : sentiment_balance Examples.quotient Examples.sort_by_ratio
                  (filtered_df
                     (load_data Examples.iso_date (Examples.league 22))
                     AllYears "All")
                = Returns
                    (Some
                       (firstn 20
                          (Examples.sort_by_ratio
                             (ratio_rows Examples.quotient
                                (club_counts
                                   (filtered_df
                                      (load_data Examples.iso_date
                                                 (Examples.league 22))
                                      AllYears "All")))))))
      by (vm_compute; reflexivity).
    eexists. split; [exact E|].
    destruct (H _ E) as [Hlen _]. rewrite Hlen. vm_compute. reflexivity.
Defined.

End BalanceFacts.

(* ------------------------------------------------------------------ *)
(** ** The empty selection *)

Module EmptyViews.

Import App.

(** X8: when no row matches the selection every aggregate is empty or
    zero: the metrics, the composition, the sentiment volume, the
    monthly trend, the top clubs and the club comparison; the sentiment
    balance is not drawn and the word-cloud tab shows its notice.
    Nothing fails on an empty view. *)
Theorem empty_selection_degrades (english_stopwords : list string)
  (sort_values : list (string * nat) -> list (string * nat))
  (float : Type) (divide : nat -> nat -> float)
  (sort_by_ratio : list (balance_row float) -> list (balance_row float))
  (df : list row) (selected_year : year_selection) (selected_club : string) :
  (forall l, Permutation l (sort_values l)) ->
  filtered_df df selected_year selected_club = [] ->
  let v := render english_stopwords df selected_year selected_club in
  total_tweets v = 0 /\ positive v = 0 /\ negative v = 0 /\
  sentiment_composition v = [] /\
  tab1_monthly_trend v = [] /\ tab2_club_counts v = [] /\
  tab4_word_cloud v = NoTextWarning /\
  sentiment_counts sort_values
    (filtered_df df selected_year selected_club) = [] /\
  club_rank sort_values (filtered_df df selected_year selected_club) = [] /\
  sentiment_balance divide sort_by_ratio
    (filtered_df df selected_year selected_club)
  = Returns None.
Proof.
  intros Hsort E. unfold render, sentiment_counts, club_rank. cbn.
  rewrite E. cbn.
  assert (Hnil : sort_values [] = [])
    by (apply Permutation_nil; apply Hsort).
  rewrite Hnil. repeat split.
Qed.

Lemma empty_selection_degrades_witness :
  tab4_word_cloud (render [] Examples.loaded (Year 1999) "All")
  = NoTextWarning /\
  club_rank Examples.sort_by_count
    (filtered_df Examples.loaded (Year 1999) "All") = [].
Proof.
  destruct (empty_selection_degrades [] Examples.sort_by_count
              nat Examples.quotient Examples.sort_by_ratio
              Examples.loaded (Year 1999) "All"
              (fun l => proj1 (RankedFacts.sort_by_count_contract l))
              eq_refl)
    as (_ & _ & _ & _ & _ & _ & H & _ & H' & _).
  split; [exact H | exact H'].
Defined.

End EmptyViews.
